(** * ERPNext -> Nextcloud Talk webhook relay: a shallow embedding of
      [app/main.py] and the properties of its specification.

    The handler is stateful (an SQLite connection, three outbound HTTP
    services, [time.sleep]).  It is embedded as a state-and-exception monad
    over a [World] made of the database (what is on disk and what the open
    connection sees) and the chronological log of every effect performed.
    The outside world is an oracle [Env] whose answers may depend on the
    whole log so far.

    Modelling choices that are not in the source text:
    - JSON numbers are integers (no floating point);
    - strings are byte strings; the three text primitives of Python that
      depend on Unicode tables ([str.lower], [repr], the JSON string
      escaper) are the fields of a record [PyText] over which everything is
      parameterised;
    - a request is seen through Flask's accessors: for the JSON body and for
      each form key, what [json.loads] makes of it (a value, or one of the
      exceptions it raises). *)

From Stdlib Require Import List String Ascii ZArith Lia Bool Arith.
From Stdlib Require Import Permutation Sorted OrderedTypeEx DecimalString.
Import ListNotations.
Local Open Scope string_scope.
Set Warnings "-register-all".

(* ================================================================== *)
(** ** Python values *)

(** What [json.loads] / [request.get_json] can return.  A Python [dict] keeps
    insertion order and has unique keys: an association list read from the
    left. *)
Inductive json : Type :=
| JNull
| JBool (b : bool)
| JInt (z : Z)
| JStr (s : string)
| JList (l : list json)
| JDict (d : list (string * json)).

(** Python truthiness, the test behind [if data:], [if row:], ... *)
Definition truthy (v : json) : bool :=
  match v with
  | JNull => false
  | JBool b => b
  | JInt z => negb (z =? 0)%Z
  | JStr s => negb (s =? "")
  | JList l => match l with [] => false | _ => true end
  | JDict d => match d with [] => false | _ => true end
  end.

Fixpoint assoc (k : string) (d : list (string * json)) : option json :=
  match d with
  | [] => None
  | (k', v) :: d' => if k' =? k then Some v else assoc k d'
  end.

(** Unhandled Python exceptions that the code can raise. *)
Inductive Exn : Type :=
| AttributeError   (* [.get], [.lower], [.rstrip], [.replace] on the wrong type *)
| BadRequest       (* werkzeug: [request.get_json()] on an undecodable body *)
| InterfaceError   (* sqlite3: a parameter that cannot be bound *)
| ValueError       (* [json.loads]: a plain [ValueError], not a decode error *)
| RecursionError.  (* [json.loads]: the text is nested too deeply *)

Inductive Res (A : Type) : Type :=
| Val (a : A)
| Raise (e : Exn).
Arguments Val {A} a.
Arguments Raise {A} e.

(** [v.get(k)]: [None] when the key is absent, [AttributeError] when [v] is
    not a dict. *)
Definition py_get (v : json) (k : string) : Res json :=
  match v with
  | JDict d => Val (match assoc k d with Some x => x | None => JNull end)
  | _ => Raise AttributeError
  end.

(** [v.get(k, {})] *)
Definition py_get_default (v : json) (k : string) (dflt : json) : Res json :=
  match v with
  | JDict d => Val (match assoc k d with Some x => x | None => dflt end)
  | _ => Raise AttributeError
  end.

(* ================================================================== *)
(** ** Text primitives *)

Record PyText : Type := {
  lower : string -> string;          (* [str.lower] *)
  repr : json -> string;             (* [repr] of a list or a dict *)
  json_escape : string -> string     (* the JSON encoder's quoted string *)
}.

Definition nl : string := String "010" EmptyString.

Definition string_of_Z (z : Z) : string := NilZero.string_of_int (Z.to_int z).

(** [str(v)], the conversion an f-string applies. *)
Definition py_str (py : PyText) (v : json) : string :=
  match v with
  | JNull => "None"
  | JBool true => "True"
  | JBool false => "False"
  | JInt z => string_of_Z z
  | JStr s => s
  | _ => repr py v
  end.

(** [s.rstrip('/')] *)
Fixpoint rstrip_slash (s : string) : string :=
  match s with
  | EmptyString => EmptyString
  | String c s' =>
      match rstrip_slash s' with
      | EmptyString => if (c =? "/")%char then EmptyString else String c EmptyString
      | t => String c t
      end
  end.

(** [s.replace(old, new)] for one-character [old] and [new]. *)
Fixpoint replace_char (old new : ascii) (s : string) : string :=
  match s with
  | EmptyString => EmptyString
  | String c s' => String (if (c =? old)%char then new else c) (replace_char old new s')
  end.

(* ================================================================== *)
(** ** [json.dumps(data, sort_keys=True)] *)

Fixpoint insert_item (kv : string * string) (l : list (string * string))
  : list (string * string) :=
  match l with
  | [] => [kv]
  | kv' :: l' =>
      if String.leb (fst kv) (fst kv') then kv :: l else kv' :: insert_item kv l'
  end.

Fixpoint sort_items (l : list (string * string)) : list (string * string) :=
  match l with
  | [] => []
  | kv :: l' => insert_item kv (sort_items l')
  end.

Fixpoint join (sep : string) (l : list string) : string :=
  match l with
  | [] => ""
  | [x] => x
  | x :: l' => x ++ sep ++ join sep l'
  end.

Fixpoint dumps (py : PyText) (v : json) : string :=
  match v with
  | JNull => "null"
  | JBool true => "true"
  | JBool false => "false"
  | JInt z => string_of_Z z
  | JStr s => json_escape py s
  | JList l => "[" ++ join ", " (map (dumps py) l) ++ "]"
  | JDict d =>
      "{" ++ join ", "
               (map (fun kv => json_escape py (fst kv) ++ ": " ++ snd kv)
                    (sort_items (map (fun kv => (fst kv, dumps py (snd kv))) d)))
          ++ "}"
  end.

(* ================================================================== *)
(** ** The world: database, outbound services, effect log *)

(** Modelled from the spec: the schema ([schema.sql] is not among the
    sources).  Two tables: the processed payloads, and the cache from
    username to room token with a unique key (upsert). *)
Record Tables : Type := {
  processed_webhooks : list string;
  user_cache : list (string * json)
}.

Inductive Event : Type :=
| SelectProcessed (payload : string)
| InsertProcessed (payload : string)
| Commit
| SelectCache (username : string)
| ReplaceCache (username : string) (room_token : json)
| GetUser (email : string)                          (* directory API *)
| PostRoom (invite : string)                        (* create conversation *)
| PostChat (room_token : string) (message : string) (* send message *)
| Sleep (seconds : Z).


(** [disk] is what has been committed, [conn] what the open connection
    sees, [log] every effect so far, oldest first. *)
Record World : Type := {
  disk : Tables;
  conn : Tables;
  log : list Event
}.

(** The outcome of [requests.get] / [requests.post]: a transport failure or
    a response with its status code and decoded body. *)
Inductive HttpResult : Type :=
| ConnectionError
| Response (status_code : Z) (body : json).

(** [response.raise_for_status()] raises for 4xx and 5xx. *)
Definition raises_for_status (status_code : Z) : bool :=
  ((400 <=? status_code) && (status_code <? 600))%Z.

(** The three services; an answer may depend on everything done so far. *)
Record Env : Type := {
  erpnext_user : list Event -> string -> HttpResult;
  talk_room : list Event -> string -> HttpResult;
  talk_chat : list Event -> string -> string -> HttpResult
}.

Record Config : Type := {
  ERPNEXT_API_URL : option string    (* [os.getenv] may give [None] *)
}.

(** How [json.loads] can fail: [json.JSONDecodeError] on a text that is not
    JSON; a plain [ValueError] (an integer literal beyond the interpreter's
    digit limit), which is not a [JSONDecodeError]; [RecursionError] on a
    text nested too deeply. *)
Inductive LoadError : Type :=
| DecodeError
| DigitLimit
| TooDeep.

Inductive Loaded : Type :=
| Decoded (data : json)
| Fails (e : LoadError).

(** A request through Flask's accessors.  [get_json] is what [json.loads]
    makes of the body; [form] lists, for each key, what [json.loads] makes
    of it. *)
Record Request : Type := {
  is_json : bool;
  get_json : Loaded;
  form : list Loaded
}.

(* ------------------------------------------------------------------ *)
(** *** The monad *)

Definition M (A : Type) : Type := World -> Res A * World.

Definition ret {A} (a : A) : M A := fun w => (Val a, w).

Definition raise {A} (e : Exn) : M A := fun w => (Raise e, w).

Definition bind {A B} (m : M A) (k : A -> M B) : M B :=
  fun w => match m w with
           | (Val a, w') => k a w'
           | (Raise e, w') => (Raise e, w')
           end.

Definition lift {A} (r : Res A) : M A := fun w => (r, w).

Notation "x <- m ;; k" := (bind m (fun x => k))
  (at level 61, m at next level, right associativity).
Notation "m ;;; k" := (bind m (fun _ => k))
  (at level 61, right associativity).

Definition emit (e : Event) : M unit :=
  fun w => (Val tt, {| disk := disk w; conn := conn w; log := log w ++ [e] |}).

(* ------------------------------------------------------------------ *)
(** *** SQLite *)

Definition is_processed (payload : string) (t : Tables) : bool :=
  existsb (String.eqb payload) (processed_webhooks t).

Fixpoint cache_row (username : string) (c : list (string * json)) : option json :=
  match c with
  | [] => None
  | (u, tok) :: c' => if u =? username then Some tok else cache_row username c'
  end.

Definition cache_replace (username : string) (tok : json) (c : list (string * json))
  : list (string * json) :=
  (username, tok) :: filter (fun r => negb (fst r =? username)) c.

(** What sqlite3 stores for a bound Python value; [None] when it cannot be
    bound (a list, a dict, an integer beyond 64 bits). *)
Definition sql_value (v : json) : option json :=
  match v with
  | JNull => Some JNull
  | JBool b => Some (JInt (if b then 1 else 0))
  | JInt z => if ((- 2 ^ 63 <=? z) && (z <? 2 ^ 63))%Z then Some (JInt z) else None
  | JStr s => Some (JStr s)
  | JList _ | JDict _ => None
  end.

(** [SELECT 1 FROM processed_webhooks WHERE payload = ?] then [fetchone()] *)
Definition select_processed (payload : string) : M bool :=
  emit (SelectProcessed payload) ;;;
  fun w => (Val (is_processed payload (conn w)), w).

(** [INSERT INTO processed_webhooks (payload) VALUES (?)] *)
Definition insert_processed (payload : string) : M unit :=
  emit (InsertProcessed payload) ;;;
  fun w => (Val tt,
            {| disk := disk w;
               conn := {| processed_webhooks := processed_webhooks (conn w) ++ [payload];
                          user_cache := user_cache (conn w) |};
               log := log w |}).

(** [SELECT room_token FROM user_cache WHERE username = ?] then [fetchone()] *)
Definition select_cache (username : string) : M (option json) :=
  emit (SelectCache username) ;;;
  fun w => (Val (cache_row username (user_cache (conn w))), w).

(** [INSERT OR REPLACE INTO user_cache (username, room_token) VALUES (?, ?)] *)
Definition replace_cache (username : string) (room_token : json) : M unit :=
  match sql_value room_token with
  | None => raise InterfaceError
  | Some stored =>
      emit (ReplaceCache username stored) ;;;
      fun w => (Val tt,
                {| disk := disk w;
                   conn := {| processed_webhooks := processed_webhooks (conn w);
                              user_cache := cache_replace username stored (user_cache (conn w)) |};
                   log := log w |})
  end.

(** [db.commit()] *)
Definition commit : M unit :=
  emit Commit ;;;
  fun w => (Val tt, {| disk := conn w; conn := conn w; log := log w |}).

(** [close_db], the teardown: what was not committed is gone. *)
Definition close_db (w : World) : World :=
  {| disk := disk w; conn := disk w; log := log w |}.

(** [time.sleep(seconds)] *)
Definition sleep (seconds : Z) : M unit := emit (Sleep seconds).

(* ================================================================== *)
(** ** The application *)

Section App.

Variable py : PyText.
Variable cfg : Config.
Variable env : Env.

Definition http_get_user (email : string) : M HttpResult :=
  fun w => (Val (erpnext_user env (log w) email),
            {| disk := disk w; conn := conn w; log := log w ++ [GetUser email] |}).

Definition http_post_room (invite : string) : M HttpResult :=
  fun w => (Val (talk_room env (log w) invite),
            {| disk := disk w; conn := conn w; log := log w ++ [PostRoom invite] |}).

Definition http_post_chat (room_token message : string) : M HttpResult :=
  fun w => (Val (talk_chat env (log w) room_token message),
            {| disk := disk w; conn := conn w;
               log := log w ++ [PostChat room_token message] |}).

(** [fetch_user_details]: the ["data"] member of the answer, [None] on any
    [RequestException]. *)
Definition fetch_user_details (email : json) : M json :=
  r <- http_get_user (py_str py email) ;;
  match r with
  | ConnectionError => ret JNull
  | Response status_code body =>
      if raises_for_status status_code then ret JNull
      else lift (py_get body "data")
  end.

(** [get_talk_username]: [full_name.replace(" ", " ")] *)
Definition get_talk_username (full_name : json) : Res string :=
  match full_name with
  | JStr s => Val (replace_char " " " " s)
  | _ => Raise AttributeError
  end.

Definition max_retries : nat := 5.

(** The [while retries < max_retries] loop of [create_talk_conversation].
    Every iteration that does not return increments [retries], so
    [max_retries - retries] iterations are enough: [fuel] is never what
    stops the loop (lemma [room_loop_fuel]). *)
Fixpoint room_loop (invite_username : string) (fuel retries : nat) (backoff_delay : Z)
  : M json :=
  if (retries <? max_retries)%nat then
    match fuel with
    | O => ret JNull
    | S fuel' =>
        r <- http_post_room invite_username ;;
        match r with
        | ConnectionError => ret JNull
        | Response status_code body =>
            if raises_for_status status_code then
              if (status_code =? 429)%Z then
                sleep backoff_delay ;;;
                room_loop invite_username fuel' (S retries) (backoff_delay * 2)
              else ret JNull
            else
              ocs <- lift (py_get_default body "ocs" (JDict [])) ;;
              room_data <- lift (py_get ocs "data") ;;
              if truthy room_data then
                room_token <- lift (py_get room_data "token") ;;
                replace_cache invite_username room_token ;;;
                commit ;;;
                ret room_token
              else ret JNull
        end
    end
  else ret JNull.

(** [create_talk_conversation]: the room token, [None] on failure. *)
Definition create_talk_conversation (invite_username : string) : M json :=
  row <- select_cache invite_username ;;
  match row with
  | Some room_token => ret room_token
  | None => room_loop invite_username max_retries 0 1
  end.

(** [send_talk_message]: [True] when the post went through. *)
Definition send_talk_message (room_token : json) (message : string) : M bool :=
  r <- http_post_chat (py_str py room_token) message ;;
  match r with
  | ConnectionError => ret false
  | Response status_code _ => ret (negb (raises_for_status status_code))
  end.

(** The body and status a view returns. *)
Definition Reply : Type := (json * Z)%type.

Definition error_body (msg : string) : json := JDict [("error", JStr msg)].
Definition message_body (msg : string) : json := JDict [("message", JStr msg)].

(** [f"{ERPNEXT_API_URL.rstrip('/')}/app/{reference_type.lower()}/{reference_name}"] *)
Definition erpnext_doc_url (reference_type reference_name : json) : Res string :=
  match ERPNEXT_API_URL cfg with
  | None => Raise AttributeError
  | Some base =>
      match reference_type with
      | JStr t => Val (rstrip_slash base ++ "/app/" ++ lower py t ++ "/"
                         ++ py_str py reference_name)
      | _ => Raise AttributeError
      end
  end.

Definition notification_message (full_name : string)
  (due_date reference_type reference_name assigned_by_full_name : json)
  (doc_url : string) : string :=
  ("👋 Hey " ++ full_name ++ ", you’ve been assigned a new task!" ++ nl ++ nl)
  ++ (if truthy due_date then "*📅 Date:* " ++ py_str py due_date ++ nl else "")
  ++ ("*📌 Type:* " ++ py_str py reference_type ++ nl)
  ++ ("*🆔 Reference:* [" ++ py_str py reference_name ++ "](" ++ doc_url ++ ")" ++ nl)
  ++ ("*👤 Assigned By:* " ++ py_str py assigned_by_full_name ++ nl ++ nl)
  ++ "Please check it out and take the necessary action.".

(** The [for key in request.form.keys()] loop: the first key that
    [json.loads] accepts, [None] when there is none.  Only
    [json.JSONDecodeError] is caught: any other exception of [json.loads]
    ends the loop and the view. *)
Fixpoint first_loadable (keys : list Loaded) : Res json :=
  match keys with
  | [] => Val JNull
  | Decoded data :: _ => Val data
  | Fails DecodeError :: keys' => first_loadable keys'
  | Fails DigitLimit :: _ => Raise ValueError
  | Fails TooDeep :: _ => Raise RecursionError
  end.

(** [request.get_json()]: Flask answers any [ValueError] of the decoder,
    decode errors included, with [BadRequest]; nothing else is caught. *)
Definition flask_get_json (body : Loaded) : Res json :=
  match body with
  | Decoded data => Val data
  | Fails DecodeError => Raise BadRequest
  | Fails DigitLimit => Raise BadRequest
  | Fails TooDeep => Raise RecursionError
  end.

(** Lines 224-265: the work downstream of the deduplication. *)
Definition downstream (data : json) : M Reply :=
  allocated_to_email <- lift (py_get data "allocated_to") ;;
  reference_type <- lift (py_get data "reference_type") ;;
  reference_name <- lift (py_get data "reference_name") ;;
  assigned_by_full_name <- lift (py_get data "assigned_by_full_name") ;;
  due_date <- lift (py_get data "due_date") ;;
  doc_url <- lift (erpnext_doc_url reference_type reference_name) ;;
  if truthy allocated_to_email then
    user_details <- fetch_user_details allocated_to_email ;;
    if truthy user_details then
      full_name <- lift (py_get user_details "full_name") ;;
      if truthy full_name then
        talk_username <- lift (get_talk_username full_name) ;;
        let message :=
          notification_message (py_str py full_name) due_date reference_type
            reference_name assigned_by_full_name doc_url in
        room_token <- create_talk_conversation talk_username ;;
        if truthy room_token then
          send_talk_message room_token message ;;;
          ret (message_body "Notification sent to Nextcloud Talk", 200%Z)
        else ret (error_body "Could not create or find Talk conversation", 500%Z)
      else ret (error_body "Could not retrieve full name", 500%Z)
    else ret (error_body ("Could not fetch user details for "
                            ++ py_str py allocated_to_email), 500%Z)
  else ret (error_body "Missing 'allocated_to' in webhook payload", 400%Z).

(** Lines 209-267: what the view does with [data]. *)
Definition process (data : json) : M Reply :=
  if truthy data then
    let data_str := dumps py data in
    seen <- select_processed data_str ;;
    if seen : bool then ret (message_body "Webhook already processed", 200%Z)
    else
      insert_processed data_str ;;;
      commit ;;;
      downstream data
  else ret (error_body "No usable data received", 400%Z).

(** [webhook_listener], the view behind [POST /webhook]. *)
Definition webhook_listener (req : Request) : M Reply :=
  if is_json req then
    data <- lift (flask_get_json (get_json req)) ;;
    process data
  else
    match form req with
    | _ :: _ =>
        data <- lift (first_loadable (form req)) ;;
        process data
    | [] => ret (error_body "No data or unsupported data format", 400%Z)
    end.

(** What the client gets: the view's reply, or the server's error page for an
    exception that nothing caught ([BadRequest] is an HTTP exception with
    status 400). *)
Inductive Outcome : Type :=
| Json (status : Z) (body : json)
| ErrorPage (status : Z).

Definition outcome_of (r : Res Reply) : Outcome :=
  match r with
  | Val (body, status) => Json status body
  | Raise BadRequest => ErrorPage 400
  | Raise _ => ErrorPage 500
  end.

(** [get_db] on a request's first use: a new connection sees what is on
    disk. *)
Definition connect (w : World) : World :=
  {| disk := disk w; conn := disk w; log := log w |}.

(** One request: a new connection, the view, the teardown. *)
Definition serve (req : Request) (w : World) : Outcome * World :=
  let (r, w') := webhook_listener req (connect w) in (outcome_of r, close_db w').

End App.

(* ================================================================== *)
(** ** A concrete setting for the examples *)

Definition ascii_lower (c : ascii) : ascii :=
  let n := nat_of_ascii c in
  if ((65 <=? n) && (n <=? 90))%nat then ascii_of_nat (n + 32) else c.

Fixpoint string_map (f : ascii -> ascii) (s : string) : string :=
  match s with
  | EmptyString => EmptyString
  | String c s' => String (f c) (string_map f s')
  end.

Definition dquote : string := String (ascii_of_nat 34) EmptyString.

(** Text primitives good for plain ASCII words without quotes. *)
Definition plain_text : PyText := {|
  lower := string_map ascii_lower;
  repr := fun _ => "<object>";
  json_escape := fun s => dquote ++ s ++ dquote
|}.

Definition erp_cfg : Config := {| ERPNEXT_API_URL := Some "https://erp.example/" |}.

Definition empty_tables : Tables := {| processed_webhooks := []; user_cache := [] |}.

Definition fresh_world : World :=
  {| disk := empty_tables; conn := empty_tables; log := [] |}.

Definition json_request (data : json) : Request :=
  {| is_json := true; get_json := Decoded data; form := [] |}.

(** The assignment of the specification's scenarios. *)
Definition task_payload : json :=
  JDict [("allocated_to", JStr "a@x.com"); ("reference_type", JStr "Task");
         ("reference_name", JStr "T-1"); ("assigned_by_full_name", JStr "Bob");
         ("due_date", JStr "2024-01-01")].

Definition user_alice : HttpResult :=
  Response 200 (JDict [("data", JDict [("full_name", JStr "Alice Smith")])]).

Definition room_created (token : string) : HttpResult :=
  Response 200 (JDict [("ocs", JDict [("data", JDict [("token", JStr token)])])]).

Definition status_only (status_code : Z) : HttpResult := Response status_code JNull.

(** A world where every service answers the same thing every time. *)
Definition steady_env (user room chat : HttpResult) : Env :=
  {| erpnext_user := fun _ _ => user;
     talk_room := fun _ _ => room;
     talk_chat := fun _ _ _ => chat |}.


(** A form post whose second key is the first that decodes. *)
Definition form_request : Request :=
  {| is_json := false; get_json := Fails DecodeError;
     form := [Fails DecodeError; Decoded task_payload;
              Decoded (JDict [("foo", JStr "bar")])] |}.

(** A payload with neither recipient nor reference. *)
Definition stray_payload : json := JDict [("foo", JStr "bar")].

(** A payload that names the recipient and nothing else. *)
Definition recipient_only_payload : json := JDict [("allocated_to", JStr "a@x.com")].

(** Every service is up. *)
Definition relay_env : Env :=
  steady_env user_alice (room_created "tok1") (status_only 201).

(** The chat API answers 500. *)
Definition send_down_env : Env :=
  steady_env user_alice (room_created "tok1") (status_only 500).

(** The directory answers 404. *)
Definition directory_down_env : Env :=
  steady_env (status_only 404) (room_created "tok1") (status_only 201).

(** The conversation API answers 429, or 500. *)
Definition rate_limited_env : Env :=
  steady_env user_alice (status_only 429) (status_only 201).

Definition room_down_env : Env :=
  steady_env user_alice (status_only 500) (status_only 201).

(** A conversation answer whose data carries no token. *)
Definition room_without_token : HttpResult :=
  Response 200 (JDict [("ocs", JDict [("data", JDict [("id", JInt 7)])])]).

Definition tokenless_env : Env :=
  steady_env user_alice room_without_token (status_only 201).

(* ================================================================== *)
(** ** Vocabulary of the properties *)

(** The payload that can be obtained from a request: the decoded JSON body,
    or the first form key that decodes, the keys before it raising decode
    errors only. *)
Fixpoint first_parsed (keys : list Loaded) : option json :=
  match keys with
  | [] => None
  | Decoded data :: _ => Some data
  | Fails DecodeError :: keys' => first_parsed keys'
  | Fails _ :: _ => None
  end.

Definition parsed (req : Request) : option json :=
  if is_json req then
    match get_json req with
    | Decoded data => Some data
    | Fails _ => None
    end
  else first_parsed (form req).



(** The payload when the view goes on with it: obtained and truthy. *)
Definition usable (req : Request) : option json :=
  match parsed req with
  | Some data => if truthy data then Some data else None
  | None => None
  end.

(** What a run added to the log. *)
Definition new_events (w w' : World) : list Event :=
  skipn (List.length (log w)) (log w').

Definition is_post_room (e : Event) : bool :=
  match e with PostRoom _ => true | _ => false end.

Definition is_select_cache (e : Event) : bool :=
  match e with SelectCache _ => true | _ => false end.

Definition is_get_user (e : Event) : bool :=
  match e with GetUser _ => true | _ => false end.

Definition is_post_chat (e : Event) : bool :=
  match e with PostChat _ _ => true | _ => false end.

Definition count (f : Event -> bool) (evs : list Event) : nat :=
  List.length (filter f evs).

(** The request raised a [RequestException]. *)
Definition request_failed (r : HttpResult) : bool :=
  match r with
  | ConnectionError => true
  | Response status_code _ => raises_for_status status_code
  end.





(** A property of the world that no effect performed after the
    deduplication can break: logging, writing the cache, committing. *)
Record stable (P : World -> Prop) : Prop := {
  stable_log : forall w e,
    P w -> P {| disk := disk w; conn := conn w; log := log w ++ [e] |};
  stable_cache : forall w c,
    P w -> P {| disk := disk w;
                conn := {| processed_webhooks := processed_webhooks (conn w);
                           user_cache := c |};
                log := log w |};
  stable_commit : forall w,
    P w -> P {| disk := conn w; conn := conn w; log := log w |}
}.

(** [m] keeps [P] whatever it returns or raises. *)
Definition preserves {A} (P : World -> Prop) (m : M A) : Prop :=
  forall w, P w -> P (snd (m w)).

(** The world once [payload] has been looked up, inserted and committed. *)
Definition marked (payload : string) (w : World) : World :=
  let t := {| processed_webhooks := processed_webhooks (conn w) ++ [payload];
              user_cache := user_cache (conn w) |} in
  {| disk := t; conn := t;
     log := log w ++ [SelectProcessed payload; InsertProcessed payload; Commit] |}.

(** Two calls of [create_talk_conversation] in a row. *)
Definition create_twice (env : Env) (invite_username : string) : M json :=
  create_talk_conversation env invite_username ;;;
  create_talk_conversation env invite_username.

(** Together the two calls post one conversation and read the cache twice. *)
Definition one_create_two_reads (env : Env) (invite_username : string) (w : World)
  : Prop :=
  let w' := snd (create_twice env invite_username w) in
  count is_post_room (new_events w w') = 1%nat
  /\ count is_select_cache (new_events w w') = 2%nat.






(* ================================================================== *)
(** ** Vocabulary of the further properties *)

(** The weight of a run: the sum of the weights of its events. *)
Definition total (wt : Event -> Z) (evs : list Event) : Z :=
  fold_right (fun e s => (wt e + s)%Z) 0%Z evs.

(** [m] only appends to the log, and what it appends weighs at most [n]. *)
Definition costs {A} (wt : Event -> Z) (n : Z) (m : M A) : Prop :=
  forall w, exists evs,
    log (snd (m w)) = (log w ++ evs)%list /\ (total wt evs <= n)%Z.

(** The events that are neither a call to a service nor a sleep. *)
Definition quiet (e : Event) : bool :=
  match e with
  | GetUser _ | PostRoom _ | PostChat _ _ | Sleep _ => false
  | _ => true
  end.

(** Weights: one per event of a kind, or the seconds slept. *)
Definition one (f : Event -> bool) (e : Event) : Z := if f e then 1%Z else 0%Z.

Definition slept (e : Event) : Z :=
  match e with
  | Sleep seconds => seconds
  | _ => 0%Z
  end.

(** The log of [k] rate-limited attempts starting with the delay
    [backoff_delay]. *)
Fixpoint retry_log (invite : string) (k : nat) (backoff_delay : Z) : list Event :=
  match k with
  | O => []
  | S k' =>
      PostRoom invite :: Sleep backoff_delay
        :: retry_log invite k' (backoff_delay * 2)
  end.

(** The same services with another chat API. *)
Definition with_chat (env : Env) (chat : list Event -> string -> string -> HttpResult)
  : Env :=
  {| erpnext_user := erpnext_user env; talk_room := talk_room env; talk_chat := chat |}.

(** Nothing is waiting for a commit. *)
Definition at_rest (w : World) : Prop := conn w = disk w.

(** A form post with the given keys. *)
Definition form_post (keys : list Loaded) : Request :=
  {| is_json := false; get_json := Fails DecodeError; form := keys |}.

(** The replies of the view: one ["message"] with 200, one ["error"] with
    400 or 500; or the server's own page for an exception. *)
Definition well_formed (o : Outcome) : Prop :=
  match o with
  | Json status body =>
      (status = 200%Z /\ exists msg, body = message_body msg)
      \/ ((status = 400%Z \/ status = 500%Z) /\ exists msg, body = error_body msg)
  | ErrorPage status => status = 400%Z \/ status = 500%Z
  end.

(** [m] returns only values that satisfy [Q]. *)
Definition returns {A} (Q : A -> Prop) (m : M A) : Prop :=
  forall w a w', m w = (Val a, w') -> Q a.

(** As [stable], for a property that only survives the cache writes made
    for [invite]. *)
Record stable_at (invite : string) (P : World -> Prop) : Prop := {
  stable_at_log : forall w e,
    P w -> P {| disk := disk w; conn := conn w; log := log w ++ [e] |};
  stable_at_cache : forall w stored,
    P w -> P {| disk := disk w;
                conn := {| processed_webhooks := processed_webhooks (conn w);
                           user_cache := cache_replace invite stored
                                           (user_cache (conn w)) |};
                log := log w |};
  stable_at_commit : forall w,
    P w -> P {| disk := conn w; conn := conn w; log := log w |}
}.

(** What [m] more attempts may cost when a post weighs at most [R] and a
    second of sleep weighs [sigma], the next delay being [backoff_delay]. *)
Definition loop_bound (R sigma : Z) (m : nat) (backoff_delay : Z) : Z :=
  (R * Z.of_nat m + sigma * backoff_delay * (2 ^ Z.of_nat m - 1))%Z.

(** A conversation API that is rate-limited for the first [k] posts and
    then gives [answer]. *)
Definition flaky_env (k : nat) (answer : HttpResult) : Env :=
  {| erpnext_user := fun _ _ => user_alice;
     talk_room := fun tr _ =>
       if (count is_post_room tr <? k)%nat then status_only 429 else answer;
     talk_chat := fun _ _ _ => status_only 201 |}.

(** [data.get(k)] on an object. *)
Definition field (d : list (string * json)) (k : string) : json :=
  match assoc k d with
  | Some x => x
  | None => JNull
  end.

(** The reply of the view is one of its own. *)
Definition own_reply (r : Reply) : Prop := well_formed (Json (snd r) (fst r)).

(** A directory that knows a user without a name. *)
Definition nameless_env : Env :=
  steady_env (Response 200 (JDict [("data", JDict [("email", JStr "a@x.com")])]))
    (room_created "tok1") (status_only 201).

(** A store where Bob's conversation is cached. *)
Definition bob_cached : World :=
  let t := {| processed_webhooks := []; user_cache := [("Bob Jones", JStr "tokB")] |} in
  {| disk := t; conn := t; log := [] |}.

(** Services whose success answers are JSON arrays, not objects. *)
Definition garbled_env : Env :=
  steady_env (Response 200 (JList [])) (Response 200 (JList [])) (status_only 201).

(* ================================================================== *)
(** ** Lists and logs *)

Lemma app_one_two {A} (l : list A) (a : A) (l' : list A) :
  ((l ++ [a]) ++ l' = l ++ a :: l')%list.
Proof. now rewrite <- app_assoc. Qed.


Lemma skipn_length_app {A} (l evs : list A) :
  skipn (List.length l) (l ++ evs) = evs.
Proof. induction l as [|a l IH]; cbn; [reflexivity|exact IH]. Qed.

Lemma new_events_app (w : World) d c evs :
  new_events w {| disk := d; conn := c; log := log w ++ evs |} = evs.
Proof. unfold new_events. cbn. apply skipn_length_app. Qed.



Lemma bind_lift_val {A B} (a : A) (k : A -> M B) (w : World) :
  bind (lift (Val a)) k w = k a w.
Proof. reflexivity. Qed.


(* ================================================================== *)
(** ** Canonical form: sorting the keys *)

Section Canonical.









Variable py : PyText.



End Canonical.

(* ================================================================== *)
(** ** What every step keeps *)

Section Preservation.

Variable py : PyText.
Variable cfg : Config.
Variable env : Env.
Variable P : World -> Prop.
Hypothesis HP : stable P.

Lemma preserves_ret {A} (a : A) : preserves P (ret a).
Proof. intros w Hw. exact Hw. Qed.

Lemma preserves_raise {A} (e : Exn) : preserves P (@raise A e).
Proof. intros w Hw. exact Hw. Qed.

Lemma preserves_lift {A} (r : Res A) : preserves P (lift r).
Proof. intros w Hw. exact Hw. Qed.

Lemma preserves_bind {A B} (m : M A) (k : A -> M B) :
  preserves P m -> (forall a, preserves P (k a)) -> preserves P (bind m k).
Proof.
  intros Hm Hk w Hw. unfold bind.
  specialize (Hm w Hw). destruct (m w) as [[a|e] w1]; cbn in *.
  - now apply Hk.
  - exact Hm.
Qed.

Lemma preserves_if {A} (b : bool) (m m' : M A) :
  preserves P m -> preserves P m' -> preserves P (if b then m else m').
Proof. now destruct b. Qed.

Lemma preserves_emit (e : Event) : preserves P (emit e).
Proof. intros w Hw. cbn. now apply stable_log. Qed.

Lemma preserves_select_cache username : preserves P (select_cache username).
Proof.
  apply preserves_bind; [apply preserves_emit|]. intros _ w Hw. exact Hw.
Qed.

Lemma preserves_replace_cache username room_token :
  preserves P (replace_cache username room_token).
Proof.
  unfold replace_cache. destruct (sql_value room_token); [|apply preserves_raise].
  apply preserves_bind; [apply preserves_emit|]. intros _ w Hw. cbn.
  now apply stable_cache.
Qed.

Lemma preserves_commit : preserves P commit.
Proof.
  apply preserves_bind; [apply preserves_emit|]. intros _ w Hw. cbn.
  now apply stable_commit.
Qed.

Lemma preserves_http_get_user email : preserves P (http_get_user env email).
Proof. intros w Hw. cbn. now apply stable_log. Qed.

Lemma preserves_http_post_room invite : preserves P (http_post_room env invite).
Proof. intros w Hw. cbn. now apply stable_log. Qed.

Lemma preserves_http_post_chat room_token message :
  preserves P (http_post_chat env room_token message).
Proof. intros w Hw. cbn. now apply stable_log. Qed.

Lemma preserves_room_loop invite fuel :
  forall retries backoff_delay,
    preserves P (room_loop env invite fuel retries backoff_delay).
Proof.
  induction fuel as [|fuel IH]; intros retries backoff_delay; cbn [room_loop];
    apply preserves_if; try apply preserves_ret.
  apply preserves_bind; [apply preserves_http_post_room|].
  intros [|status_code body]; [apply preserves_ret|].
  repeat apply preserves_if; try apply preserves_ret.
  - apply preserves_bind; [apply preserves_emit|]. intros _. apply IH.
  - apply preserves_bind; [apply preserves_lift|]. intros ocs.
    apply preserves_bind; [apply preserves_lift|]. intros room_data.
    apply preserves_if; [|apply preserves_ret].
    apply preserves_bind; [apply preserves_lift|]. intros room_token.
    apply preserves_bind; [apply preserves_replace_cache|]. intros _.
    apply preserves_bind; [apply preserves_commit|]. intros _.
    apply preserves_ret.
Qed.

Lemma preserves_create_talk_conversation invite :
  preserves P (create_talk_conversation env invite).
Proof.
  apply preserves_bind; [apply preserves_select_cache|].
  intros [room_token|]; [apply preserves_ret|apply preserves_room_loop].
Qed.

Lemma preserves_fetch_user_details email :
  preserves P (fetch_user_details py env email).
Proof.
  apply preserves_bind; [apply preserves_http_get_user|].
  intros [|status_code body]; [apply preserves_ret|].
  apply preserves_if; [apply preserves_ret|apply preserves_lift].
Qed.

Lemma preserves_send_talk_message room_token message :
  preserves P (send_talk_message py env room_token message).
Proof.
  apply preserves_bind; [apply preserves_http_post_chat|].
  intros [|status_code body]; apply preserves_ret.
Qed.

Lemma preserves_downstream data : preserves P (downstream py cfg env data).
Proof.
  unfold downstream.
  do 6 (apply preserves_bind; [apply preserves_lift|]; intro).
  apply preserves_if; [|apply preserves_ret].
  apply preserves_bind; [apply preserves_fetch_user_details|]. intros user_details.
  apply preserves_if; [|apply preserves_ret].
  apply preserves_bind; [apply preserves_lift|]. intros full_name.
  apply preserves_if; [|apply preserves_ret].
  apply preserves_bind; [apply preserves_lift|]. intros talk_username.
  apply preserves_bind; [apply preserves_create_talk_conversation|].
  intros room_token.
  apply preserves_if; [|apply preserves_ret].
  apply preserves_bind; [apply preserves_send_talk_message|]. intros _.
  apply preserves_ret.
Qed.

End Preservation.

(** The log only grows. *)
Lemma stable_log_extends (l0 : list Event) :
  stable (fun w => exists evs, log w = (l0 ++ evs)%list).
Proof.
  split.
  - intros w e [evs Hw]. exists (evs ++ [e])%list. cbn. rewrite Hw.
    now rewrite app_assoc.
  - intros w c [evs Hw]. now exists evs.
  - intros w [evs Hw]. now exists evs.
Qed.


(* ================================================================== *)
(** ** The conversation manager *)

Section Conversation.

Variable env : Env.

Lemma room_loop_429 invite fuel retries backoff_delay body w :
  talk_room env (log w) invite = Response 429 body ->
  (retries < max_retries)%nat ->
  room_loop env invite (S fuel) retries backoff_delay w =
  room_loop env invite fuel (S retries) (backoff_delay * 2)
    {| disk := disk w; conn := conn w;
       log := log w ++ [PostRoom invite; Sleep backoff_delay] |}.
Proof.
  intros Hroom Hlt. cbn [room_loop].
  apply Nat.ltb_lt in Hlt. rewrite Hlt.
  unfold bind at 1. unfold http_post_room. rewrite Hroom.
  cbn. now rewrite app_one_two.
Qed.

Lemma room_loop_exhausted invite fuel retries backoff_delay w :
  (max_retries <= retries)%nat ->
  room_loop env invite fuel retries backoff_delay w = (Val JNull, w).
Proof.
  intros Hge. apply Nat.ltb_ge in Hge.
  destruct fuel; cbn [room_loop]; rewrite Hge; reflexivity.
Qed.

(** The loop never stops for want of fuel. *)
Lemma room_loop_fuel invite fuel :
  forall retries backoff_delay w,
    (max_retries - retries <= fuel)%nat ->
    room_loop env invite fuel retries backoff_delay w =
    room_loop env invite (max_retries - retries) retries backoff_delay w.
Proof.
  induction fuel as [|fuel IH]; intros retries backoff_delay w Hfuel.
  - assert (max_retries - retries = 0)%nat as -> by lia. reflexivity.
  - destruct (Nat.ltb_spec retries max_retries) as [Hlt|Hge].
    + assert (max_retries - retries = S (max_retries - S retries))%nat as -> by lia.
      cbn [room_loop]. apply Nat.ltb_lt in Hlt. rewrite Hlt.
      unfold bind, http_post_room, sleep, emit.
      destruct (talk_room env (log w) invite) as [|status_code body]; [reflexivity|].
      destruct (raises_for_status status_code); [|reflexivity].
      destruct (status_code =? 429)%Z; [|reflexivity].
      apply IH. apply Nat.ltb_lt in Hlt. lia.
    + now rewrite !room_loop_exhausted.
Qed.

Lemma create_cache_miss invite w :
  cache_row invite (user_cache (conn w)) = None ->
  create_talk_conversation env invite w =
  room_loop env invite max_retries 0 1
    {| disk := disk w; conn := conn w; log := log w ++ [SelectCache invite] |}.
Proof.
  intros Hmiss. unfold create_talk_conversation, select_cache, bind, emit.
  cbn. now rewrite Hmiss.
Qed.

Lemma create_cache_hit invite room_token w :
  cache_row invite (user_cache (conn w)) = Some room_token ->
  create_talk_conversation env invite w =
  (Val room_token,
   {| disk := disk w; conn := conn w; log := log w ++ [SelectCache invite] |}).
Proof.
  intros Hhit. unfold create_talk_conversation, select_cache, bind, emit.
  cbn. now rewrite Hhit.
Qed.

(** C3. When the conversation API answers 429 to every attempt,
    [create_talk_conversation] posts exactly five times, sleeps 1, 2, 4, 8
    and 16 seconds after the attempts, and returns [None]. *)
Theorem backoff_on_repeated_429 invite w :
  cache_row invite (user_cache (conn w)) = None ->
  (forall tr, exists body, talk_room env tr invite = Response 429 body) ->
  create_talk_conversation env invite w =
  (Val JNull,
   {| disk := disk w; conn := conn w;
      log := log w ++ [SelectCache invite;
                       PostRoom invite; Sleep 1; PostRoom invite; Sleep 2;
                       PostRoom invite; Sleep 4; PostRoom invite; Sleep 8;
                       PostRoom invite; Sleep 16] |})
  /\ count is_post_room
       (new_events w (snd (create_talk_conversation env invite w))) = 5%nat.
Proof.
  intros Hmiss Hbusy.
  assert (create_talk_conversation env invite w =
          (Val JNull,
           {| disk := disk w; conn := conn w;
              log := log w ++ [SelectCache invite;
                               PostRoom invite; Sleep 1; PostRoom invite; Sleep 2;
                               PostRoom invite; Sleep 4; PostRoom invite; Sleep 8;
                               PostRoom invite; Sleep 16] |})) as Hrun.
  { rewrite (create_cache_miss _ _ Hmiss). unfold max_retries at 1.
    do 5 (match goal with
          | |- room_loop _ _ _ _ _ ?w0 = _ =>
              destruct (Hbusy (log w0)) as [? Hroom];
              rewrite (room_loop_429 _ _ _ _ _ _ Hroom)
                by (unfold max_retries; lia);
              clear Hroom; cbn [log disk conn]
          end).
    rewrite room_loop_exhausted by (unfold max_retries; lia).
    cbn. rewrite <- !app_assoc. reflexivity. }
  split; [exact Hrun|]. rewrite Hrun. cbn [snd]. now rewrite new_events_app.
Qed.

(** One successful post: what [create_talk_conversation] does with the
    answer's conversation data. *)
Lemma create_first_post_ok invite w status_code body ocs room_data :
  cache_row invite (user_cache (conn w)) = None ->
  talk_room env (log w ++ [SelectCache invite]) invite = Response status_code body ->
  raises_for_status status_code = false ->
  py_get_default body "ocs" (JDict []) = Val ocs ->
  py_get ocs "data" = Val room_data ->
  create_talk_conversation env invite w =
  (if truthy room_data then
     room_token <- lift (py_get room_data "token") ;;
     replace_cache invite room_token ;;;
     commit ;;;
     ret room_token
   else ret JNull)
    {| disk := disk w; conn := conn w;
       log := log w ++ [SelectCache invite; PostRoom invite] |}.
Proof.
  intros Hmiss Hroom Hok Hocs Hdata.
  rewrite (create_cache_miss _ _ Hmiss).
  unfold max_retries at 1. cbn [room_loop]. cbn [Nat.ltb Nat.leb max_retries].
  unfold bind at 1. unfold http_post_room. cbn [log disk conn].
  rewrite Hroom, Hok, Hocs. rewrite bind_lift_val, Hdata, bind_lift_val.
  now rewrite app_one_two.
Qed.

(** A success answer without conversation data: [None], and the cache is
    left alone. *)
Lemma create_without_data invite w status_code body ocs room_data :
  cache_row invite (user_cache (conn w)) = None ->
  talk_room env (log w ++ [SelectCache invite]) invite = Response status_code body ->
  raises_for_status status_code = false ->
  py_get_default body "ocs" (JDict []) = Val ocs ->
  py_get ocs "data" = Val room_data ->
  truthy room_data = false ->
  create_talk_conversation env invite w =
  (Val JNull,
   {| disk := disk w; conn := conn w;
      log := log w ++ [SelectCache invite; PostRoom invite] |}).
Proof.
  intros Hmiss Hroom Hok Hocs Hdata Hfalsy.
  rewrite (create_first_post_ok _ _ _ _ _ _ Hmiss Hroom Hok Hocs Hdata).
  now rewrite Hfalsy.
Qed.

(** A success answer with conversation data: whatever is under ["token"],
    [None] included, is written to the cache and committed before it is
    returned. *)
Lemma create_with_data invite w status_code body ocs room_data room_token stored :
  cache_row invite (user_cache (conn w)) = None ->
  talk_room env (log w ++ [SelectCache invite]) invite = Response status_code body ->
  raises_for_status status_code = false ->
  py_get_default body "ocs" (JDict []) = Val ocs ->
  py_get ocs "data" = Val room_data ->
  truthy room_data = true ->
  py_get room_data "token" = Val room_token ->
  sql_value room_token = Some stored ->
  create_talk_conversation env invite w =
  (Val room_token,
   {| disk := {| processed_webhooks := processed_webhooks (conn w);
                 user_cache := cache_replace invite stored (user_cache (conn w)) |};
      conn := {| processed_webhooks := processed_webhooks (conn w);
                 user_cache := cache_replace invite stored (user_cache (conn w)) |};
      log := log w ++ [SelectCache invite; PostRoom invite;
                       ReplaceCache invite stored; Commit] |}).
Proof.
  intros Hmiss Hroom Hok Hocs Hdata Htruthy Htoken Hsql.
  rewrite (create_first_post_ok _ _ _ _ _ _ Hmiss Hroom Hok Hocs Hdata).
  rewrite Htruthy, Htoken, bind_lift_val.
  unfold replace_cache. rewrite Hsql. unfold bind, emit, commit, ret, bind, emit.
  cbn [log disk conn]. rewrite <- !app_assoc. reflexivity.
Qed.

End Conversation.

(** On an empty database with a conversation API that always answers 429. *)
Lemma backoff_on_repeated_429_witness :
  cache_row "Alice Smith" (user_cache (conn fresh_world)) = None
  /\ create_talk_conversation rate_limited_env "Alice Smith" fresh_world =
  (Val JNull,
   {| disk := empty_tables; conn := empty_tables;
      log := [SelectCache "Alice Smith";
              PostRoom "Alice Smith"; Sleep 1; PostRoom "Alice Smith"; Sleep 2;
              PostRoom "Alice Smith"; Sleep 4; PostRoom "Alice Smith"; Sleep 8;
              PostRoom "Alice Smith"; Sleep 16] |}).
Proof.
  split; [reflexivity|].
  apply (backoff_on_repeated_429 rate_limited_env "Alice Smith" fresh_world).
  - reflexivity.
  - intros tr. exists JNull. reflexivity.
Defined.

(** C5, as stated, fails: a conversation API that answers 500 is called by
    each of two calls in a row for a recipient that was never seen. *)
Lemma two_creates_when_api_fails :
  cache_row "Alice Smith" (user_cache (conn fresh_world)) = None
  /\ ~ one_create_two_reads room_down_env "Alice Smith" fresh_world.
Proof.
  split; [reflexivity|]. intros [Hposts _]. vm_compute in Hposts. discriminate.
Qed.

(** C5, amended.  A recipient in the cache gets the cached token after the
    one cache read and nothing else; and when the first conversation request
    for a recipient not in the cache is answered with a success response
    carrying conversation data, two calls in a row post one conversation and
    read the cache twice, the second returning what was stored. *)
Theorem cache_hit_skips_create (env : Env) (invite : string) :
  (forall w room_token,
      cache_row invite (user_cache (conn w)) = Some room_token ->
      create_talk_conversation env invite w =
      (Val room_token,
       {| disk := disk w; conn := conn w; log := log w ++ [SelectCache invite] |}))
  /\
  (forall w status_code body ocs room_data room_token stored,
      cache_row invite (user_cache (conn w)) = None ->
      talk_room env (log w ++ [SelectCache invite]) invite
      = Response status_code body ->
      raises_for_status status_code = false ->
      py_get_default body "ocs" (JDict []) = Val ocs ->
      py_get ocs "data" = Val room_data ->
      truthy room_data = true ->
      py_get room_data "token" = Val room_token ->
      sql_value room_token = Some stored ->
      fst (create_twice env invite w) = Val stored
      /\ one_create_two_reads env invite w).
Proof.
  split.
  - intros w room_token Hhit. now apply create_cache_hit.
  - intros w status_code body ocs room_data room_token stored
           Hmiss Hroom Hok Hocs Hdata Htruthy Htoken Hsql.
    assert (create_twice env invite w =
            (Val stored,
             {| disk := {| processed_webhooks := processed_webhooks (conn w);
                           user_cache := cache_replace invite stored
                                           (user_cache (conn w)) |};
                conn := {| processed_webhooks := processed_webhooks (conn w);
                           user_cache := cache_replace invite stored
                                           (user_cache (conn w)) |};
                log := log w ++ [SelectCache invite; PostRoom invite;
                                 ReplaceCache invite stored; Commit;
                                 SelectCache invite] |})) as Hrun.
    { unfold create_twice. unfold bind at 1.
      rewrite (create_with_data env _ _ _ _ _ _ _ _
                 Hmiss Hroom Hok Hocs Hdata Htruthy Htoken Hsql).
      erewrite create_cache_hit.
      2:{ cbn. now rewrite String.eqb_refl. }
      cbn [log disk conn]. rewrite <- !app_assoc. reflexivity. }
    unfold one_create_two_reads. rewrite Hrun. cbn [fst snd].
    rewrite new_events_app. repeat split.
Qed.

(** On an empty database with a conversation API that answers a token. *)
Lemma cache_hit_skips_create_witness :
  fst (create_twice relay_env "Alice Smith" fresh_world) = Val (JStr "tok1")
  /\ one_create_two_reads relay_env "Alice Smith" fresh_world.
Proof.
  apply (proj2 (cache_hit_skips_create relay_env "Alice Smith"))
    with (status_code := 200%Z)
         (body := JDict [("ocs", JDict [("data", JDict [("token", JStr "tok1")])])])
         (ocs := JDict [("data", JDict [("token", JStr "tok1")])])
         (room_data := JDict [("token", JStr "tok1")])
         (room_token := JStr "tok1"); reflexivity.
Defined.

(** C7, on the code: a success answer whose conversation data has no token
    makes [create_talk_conversation] write the recipient into the cache with
    an empty token and commit, before it returns [None]; the next call is
    then a cache hit on that empty token and posts nothing. *)
Theorem missing_token_is_cached :
  create_talk_conversation tokenless_env "Alice Smith" fresh_world =
  (Val JNull,
   {| disk := {| processed_webhooks := []; user_cache := [("Alice Smith", JNull)] |};
      conn := {| processed_webhooks := []; user_cache := [("Alice Smith", JNull)] |};
      log := [SelectCache "Alice Smith"; PostRoom "Alice Smith";
              ReplaceCache "Alice Smith" JNull; Commit] |})
  /\ create_twice tokenless_env "Alice Smith" fresh_world =
     (Val JNull,
      {| disk := {| processed_webhooks := []; user_cache := [("Alice Smith", JNull)] |};
         conn := {| processed_webhooks := []; user_cache := [("Alice Smith", JNull)] |};
         log := [SelectCache "Alice Smith"; PostRoom "Alice Smith";
                 ReplaceCache "Alice Smith" JNull; Commit;
                 SelectCache "Alice Smith"] |}).
Proof. split; reflexivity. Qed.

(** C10. [get_talk_username] returns its argument unchanged, so the cache
    is read under the display name itself. *)
Theorem get_talk_username_identity (s : string) :
  get_talk_username (JStr s) = Val s
  /\ forall env w,
       exists evs,
         log (snd ((u <- lift (get_talk_username (JStr s)) ;;
                    create_talk_conversation env u) w))
         = (log w ++ SelectCache s :: evs)%list.
Proof.
  assert (replace_char " " " " s = s) as Hid.
  { induction s as [|c s IH]; cbn; [reflexivity|]. rewrite IH.
    destruct (c =? " ")%char eqn:Hc; [|reflexivity].
    apply Ascii.eqb_eq in Hc. now subst. }
  split; [cbn; now rewrite Hid|].
  intros env w. unfold bind at 1, lift, get_talk_username. rewrite Hid.
  destruct (cache_row s (user_cache (conn w))) as [room_token|] eqn:Hrow.
  - rewrite (create_cache_hit _ _ _ _ Hrow). now exists [].
  - rewrite (create_cache_miss _ _ _ Hrow).
    destruct (preserves_room_loop env _
                (stable_log_extends (log w ++ [SelectCache s])) s max_retries 0%nat 1%Z
                {| disk := disk w; conn := conn w; log := log w ++ [SelectCache s] |})
      as [evs Hevs].
    + exists []. cbn. now rewrite app_nil_r.
    + exists evs. rewrite Hevs. now rewrite app_one_two.
Qed.

(* ================================================================== *)
(** ** The webhook view *)

Section Webhook.

Variable py : PyText.
Variable cfg : Config.
Variable env : Env.

Lemma first_loadable_parsed keys data :
  first_parsed keys = Some data -> first_loadable keys = Val data.
Proof.
  induction keys as [|[d|[]] keys IH]; cbn; intros H; try discriminate.
  - now injection H as ->.
  - now apply IH.
Qed.



Lemma first_loadable_unparsed keys :
  first_parsed keys = None ->
  first_loadable keys = Val JNull \/ exists e, first_loadable keys = Raise e.
Proof.
  induction keys as [|[d|[]] keys IH]; cbn; intros H; try discriminate.
  - now left.
  - now apply IH.
  - right. now exists ValueError.
  - right. now exists RecursionError.
Qed.

Lemma first_loadable_cases keys :
  (exists data, first_loadable keys = Val data) \/
  (exists e, first_loadable keys = Raise e /\ e <> BadRequest).
Proof.
  induction keys as [|[d|[]] keys IH]; cbn.
  - left. now exists JNull.
  - left. now exists d.
  - exact IH.
  - right. exists ValueError. split; [reflexivity|discriminate].
  - right. exists RecursionError. split; [reflexivity|discriminate].
Qed.

(** A payload that can be obtained is what the view works on. *)
Lemma webhook_listener_parsed req data :
  parsed req = Some data ->
  webhook_listener py cfg env req = process py cfg env data.
Proof.
  unfold parsed, webhook_listener. destruct (is_json req).
  - destruct (get_json req) as [d|e]; [|discriminate]. now intros [= ->].
  - intros H. rewrite (first_loadable_parsed _ _ H).
    destruct (form req); [discriminate|reflexivity].
Qed.

Lemma process_falsy data w :
  truthy data = false ->
  process py cfg env data w = (Val (error_body "No usable data received", 400%Z), w).
Proof. intros H. unfold process. now rewrite H. Qed.

Lemma process_seen data w :
  truthy data = true ->
  is_processed (dumps py data) (conn w) = true ->
  process py cfg env data w =
  (Val (message_body "Webhook already processed", 200%Z),
   {| disk := disk w; conn := conn w;
      log := log w ++ [SelectProcessed (dumps py data)] |}).
Proof.
  intros Ht Hseen. unfold process. rewrite Ht.
  unfold bind, select_processed, bind, emit. cbn. now rewrite Hseen.
Qed.

Lemma process_unseen data w :
  truthy data = true ->
  is_processed (dumps py data) (conn w) = false ->
  process py cfg env data w = downstream py cfg env data (marked (dumps py data) w).
Proof.
  intros Ht Hseen. unfold process. rewrite Ht.
  unfold bind at 1. unfold select_processed, bind, emit. cbn [fst snd conn log disk].
  rewrite Hseen. unfold insert_processed, commit, bind, emit. cbn [fst snd conn log disk].
  unfold marked. rewrite <- !app_assoc. reflexivity.
Qed.



Lemma serve_eq req w :
  serve py cfg env req w =
  (outcome_of (fst (webhook_listener py cfg env req (connect w))),
   close_db (snd (webhook_listener py cfg env req (connect w)))).
Proof.
  unfold serve. now destruct (webhook_listener py cfg env req (connect w)).
Qed.












(** The reply does not look at what [send_talk_message] returns. *)
Lemma send_result_discarded room_token message (reply : Reply) w :
  (send_talk_message py env room_token message ;;; ret reply) w =
  (Val reply,
   {| disk := disk w; conn := conn w;
      log := log w ++ [PostChat (py_str py room_token) message] |}).
Proof.
  unfold bind, send_talk_message, bind, http_post_chat.
  now destruct (talk_chat env (log w) (py_str py room_token) message).
Qed.

(** The downstream work needs a string under ['reference_type'], whatever
    else the payload holds. *)
Lemma downstream_needs_reference_type d v w :
  py_get (JDict d) "reference_type" = Val v ->
  (forall t, v <> JStr t) ->
  downstream py cfg env (JDict d) w = (Raise AttributeError, w).
Proof.
  intros Hty Hnot. unfold downstream. rewrite Hty. cbn [py_get].
  rewrite !bind_lift_val. unfold erpnext_doc_url.
  destruct (ERPNEXT_API_URL cfg) as [base|]; [|reflexivity].
  destruct v as [| | |t| |]; try reflexivity. now destruct (Hnot t).
Qed.

(** With one, and the base URL configured, a payload without recipient is
    answered 400. *)
Lemma missing_allocated_to_bad_request d base t v w :
  ERPNEXT_API_URL cfg = Some base ->
  py_get (JDict d) "reference_type" = Val (JStr t) ->
  py_get (JDict d) "allocated_to" = Val v ->
  truthy v = false ->
  downstream py cfg env (JDict d) w =
  (Val (error_body "Missing 'allocated_to' in webhook payload", 400%Z), w).
Proof.
  intros Hbase Hty Hto Hfalsy. unfold downstream. rewrite Hty, Hto.
  cbn [py_get]. rewrite !bind_lift_val. unfold erpnext_doc_url.
  rewrite Hbase, bind_lift_val. now rewrite Hfalsy.
Qed.

End Webhook.

(* ------------------------------------------------------------------ *)
(** *** The view on concrete requests *)

(** The specification's scenario: one directory request, one conversation
    created and cached, one message sent to it, answer 200. *)
Example assignment_is_relayed :
  exists message,
    serve plain_text erp_cfg relay_env (json_request task_payload) fresh_world =
    (Json 200 (message_body "Notification sent to Nextcloud Talk"),
     {| disk := {| processed_webhooks := [dumps plain_text task_payload];
                   user_cache := [("Alice Smith", JStr "tok1")] |};
        conn := {| processed_webhooks := [dumps plain_text task_payload];
                   user_cache := [("Alice Smith", JStr "tok1")] |};
        log := [SelectProcessed (dumps plain_text task_payload);
                InsertProcessed (dumps plain_text task_payload); Commit;
                GetUser "a@x.com"; SelectCache "Alice Smith";
                PostRoom "Alice Smith"; ReplaceCache "Alice Smith" (JStr "tok1");
                Commit; PostChat "tok1" message] |}).
Proof. eexists. reflexivity. Qed.

(** The same with the conversation already in the cache: no conversation is
    created and the message goes to the cached one. *)
Example cached_conversation_is_reused :
  let cached := {| processed_webhooks := [];
                   user_cache := [("Alice Smith", JStr "tokX")] |} in
  exists message,
    log (snd (serve plain_text erp_cfg relay_env (json_request task_payload)
                {| disk := cached; conn := cached; log := [] |}))
    = [SelectProcessed (dumps plain_text task_payload);
       InsertProcessed (dumps plain_text task_payload); Commit;
       GetUser "a@x.com"; SelectCache "Alice Smith"; PostChat "tokX" message].
Proof. eexists. reflexivity. Qed.

(** In a form post the first key that decodes is the payload. *)
Example first_decodable_key_wins :
  parsed form_request = Some task_payload
  /\ serve plain_text erp_cfg relay_env form_request fresh_world
     = serve plain_text erp_cfg relay_env (json_request task_payload) fresh_world.
Proof. split; reflexivity. Qed.









(** C8, on the code: a payload that names the recipient and has no
    ['reference_type'], with a directory that would answer 404: the view
    raises [AttributeError] while it builds the document URL, before it
    asks the directory; the client gets the server's 500 page and the
    directory is never asked. *)
Theorem directory_never_asked_without_reference_type :
  py_get recipient_only_payload "allocated_to" = Val (JStr "a@x.com")
  /\ (forall tr, request_failed (erpnext_user directory_down_env tr "a@x.com") = true)
  /\ fst (serve plain_text erp_cfg directory_down_env
            (json_request recipient_only_payload) fresh_world)
     = ErrorPage 500
  /\ new_events fresh_world
       (snd (serve plain_text erp_cfg directory_down_env
               (json_request recipient_only_payload) fresh_world))
     = [SelectProcessed (dumps plain_text recipient_only_payload);
        InsertProcessed (dumps plain_text recipient_only_payload); Commit].
Proof. repeat split; reflexivity. Qed.

(** C1, on the code: with a chat API that answers 500, [send_talk_message]
    returns [False] and the view still answers 200 "Notification sent to
    Nextcloud Talk". *)
Theorem success_reported_when_send_fails :
  (forall tr room_token message,
      request_failed (talk_chat send_down_env tr room_token message) = true)
  /\ fst (send_talk_message plain_text send_down_env (JStr "tok1") "hello"
            fresh_world) = Val false
  /\ fst (serve plain_text erp_cfg send_down_env (json_request task_payload)
            fresh_world)
     = Json 200 (message_body "Notification sent to Nextcloud Talk")
  /\ count is_post_chat
       (new_events fresh_world
          (snd (serve plain_text erp_cfg send_down_env (json_request task_payload)
                  fresh_world))) = 1%nat.
Proof. repeat split; reflexivity. Qed.

(** C2, on the code: a payload with neither ['allocated_to'] nor
    ['reference_type'] is marked processed, and then the view raises
    [AttributeError] while it builds the document URL, before it looks at
    ['allocated_to']: the client gets the server's 500 page. *)
Theorem missing_allocated_to_raises_without_reference_type :
  py_get stray_payload "allocated_to" = Val JNull
  /\ webhook_listener plain_text erp_cfg relay_env (json_request stray_payload)
       (connect fresh_world)
     = (Raise AttributeError, marked (dumps plain_text stray_payload) fresh_world)
  /\ fst (serve plain_text erp_cfg relay_env (json_request stray_payload) fresh_world)
     = ErrorPage 500.
Proof. repeat split; reflexivity. Qed.

(* ================================================================== *)
(** ** Further properties: what a run costs *)

Lemma total_app wt evs evs' :
  total wt (evs ++ evs') = (total wt evs + total wt evs')%Z.
Proof.
  unfold total. induction evs as [|e evs IH]; cbn; [reflexivity|].
  rewrite IH. lia.
Qed.

Lemma total_one_count f evs : total (one f) evs = Z.of_nat (count f evs).
Proof.
  unfold count, total. induction evs as [|e evs IH]; cbn [fold_right filter];
    [reflexivity|].
  rewrite IH. unfold one. destruct (f e); cbn [List.length]; lia.
Qed.

Section Costs.

Variable wt : Event -> Z.

Lemma costs_ret {A} (a : A) n : (0 <= n)%Z -> costs wt n (ret a).
Proof. intros Hn w. exists []. cbn. now rewrite app_nil_r. Qed.

Lemma costs_raise {A} (e : Exn) n : (0 <= n)%Z -> costs wt n (@raise A e).
Proof. intros Hn w. exists []. cbn. now rewrite app_nil_r. Qed.

Lemma costs_lift {A} (r : Res A) n : (0 <= n)%Z -> costs wt n (lift r).
Proof. intros Hn w. exists []. cbn. now rewrite app_nil_r. Qed.

Lemma costs_weaken {A} (m : M A) n n' :
  (n <= n')%Z -> costs wt n m -> costs wt n' m.
Proof.
  intros Hle Hm w. destruct (Hm w) as [evs [Hlog Hwt]]. exists evs.
  split; [exact Hlog|lia].
Qed.

Lemma costs_bind {A B} (m : M A) (k : A -> M B) n1 n2 :
  (0 <= n2)%Z ->
  costs wt n1 m -> (forall a, costs wt n2 (k a)) -> costs wt (n1 + n2) (bind m k).
Proof.
  intros Hn2 Hm Hk w. unfold bind.
  destruct (Hm w) as [evs [Hlog Hwt]].
  destruct (m w) as [[a|e] w1]; cbn [snd] in *.
  - destruct (Hk a w1) as [evs' [Hlog' Hwt']].
    exists (evs ++ evs')%list. split.
    + rewrite Hlog', Hlog. now rewrite app_assoc.
    + rewrite total_app. lia.
  - exists evs. split; [exact Hlog|lia].
Qed.

Lemma costs_if {A} (b : bool) (m m' : M A) n :
  costs wt n m -> costs wt n m' -> costs wt n (if b then m else m').
Proof. now destruct b. Qed.

Lemma costs_emit e : costs wt (wt e) (emit e).
Proof. intros w. exists [e]. cbn. split; [reflexivity|lia]. Qed.

Lemma costs_step {A} (e : Event) (a : World -> Res A) (f : World -> Tables) :
  costs wt (wt e)
    (fun w => (a w, {| disk := disk w; conn := f w; log := log w ++ [e] |})).
Proof. intros w. exists [e]. cbn. split; [reflexivity|lia]. Qed.

End Costs.

Section Traffic.

Variable py : PyText.
Variable cfg : Config.
Variable env : Env.
Variable wt : Event -> Z.
Variables U R C sigma : Z.
Hypothesis HU0 : (0 <= U)%Z.
Hypothesis HR0 : (0 <= R)%Z.
Hypothesis HC0 : (0 <= C)%Z.
Hypothesis Hsigma0 : (0 <= sigma)%Z.
Hypothesis Hquiet : forall e, quiet e = true -> wt e = 0%Z.
Hypothesis HU : forall email, (wt (GetUser email) <= U)%Z.
Hypothesis HR : forall invite, (wt (PostRoom invite) <= R)%Z.
Hypothesis HC : forall room_token message, (wt (PostChat room_token message) <= C)%Z.
Hypothesis Hsleep : forall seconds, wt (Sleep seconds) = (sigma * seconds)%Z.

Lemma costs_quiet {A} (e : Event) (a : World -> Res A) (f : World -> Tables) :
  quiet e = true ->
  costs wt 0 (emit e ;;;
              fun w => (a w, {| disk := disk w; conn := f w; log := log w |})).
Proof.
  intros He w. exists [e]. cbn. split; [reflexivity|]. rewrite (Hquiet e He). lia.
Qed.

Lemma costs_select_processed payload : costs wt 0 (select_processed payload).
Proof.
  intros w. exists [SelectProcessed payload]. cbn. split; [reflexivity|].
  rewrite Hquiet by reflexivity. lia.
Qed.

Lemma costs_insert_processed payload : costs wt 0 (insert_processed payload).
Proof.
  intros w. exists [InsertProcessed payload]. cbn. split; [reflexivity|].
  rewrite Hquiet by reflexivity. lia.
Qed.

Lemma costs_commit : costs wt 0 commit.
Proof.
  intros w. exists [Commit]. cbn. split; [reflexivity|].
  rewrite Hquiet by reflexivity. lia.
Qed.

Lemma costs_select_cache username : costs wt 0 (select_cache username).
Proof.
  intros w. exists [SelectCache username]. cbn. split; [reflexivity|].
  rewrite Hquiet by reflexivity. lia.
Qed.

Lemma costs_replace_cache username room_token :
  costs wt 0 (replace_cache username room_token).
Proof.
  unfold replace_cache. destruct (sql_value room_token) as [stored|];
    [|apply costs_raise; lia].
  intros w. exists [ReplaceCache username stored]. cbn. split; [reflexivity|].
  rewrite Hquiet by reflexivity. lia.
Qed.

Lemma costs_http_get_user email : costs wt U (http_get_user env email).
Proof.
  intros w. exists [GetUser email]. cbn. split; [reflexivity|].
  specialize (HU email). lia.
Qed.

Lemma costs_http_post_room invite : costs wt R (http_post_room env invite).
Proof.
  intros w. exists [PostRoom invite]. cbn. split; [reflexivity|].
  specialize (HR invite). lia.
Qed.

Lemma costs_http_post_chat room_token message :
  costs wt C (http_post_chat env room_token message).
Proof.
  intros w. exists [PostChat room_token message]. cbn. split; [reflexivity|].
  specialize (HC room_token message). lia.
Qed.

Lemma costs_sleep seconds : costs wt (sigma * seconds) (sleep seconds).
Proof.
  intros w. exists [Sleep seconds]. cbn. split; [reflexivity|].
  rewrite Hsleep. lia.
Qed.

Lemma loop_bound_nonneg m backoff_delay :
  (0 <= backoff_delay)%Z -> (0 <= loop_bound R sigma m backoff_delay)%Z.
Proof.
  intros Hb. unfold loop_bound.
  assert (1 <= 2 ^ Z.of_nat m)%Z by (apply Z.pow_le_mono_r with (b := 0%Z); lia).
  nia.
Qed.

Lemma loop_bound_step m backoff_delay :
  loop_bound R sigma (S m) backoff_delay
  = (R + (sigma * backoff_delay + loop_bound R sigma m (backoff_delay * 2)))%Z.
Proof.
  unfold loop_bound. rewrite Nat2Z.inj_succ, Z.pow_succ_r by lia. ring.
Qed.

(** The loop posts at most once per remaining retry, and its sleeps double
    from the current delay. *)
Lemma costs_room_loop invite fuel :
  forall retries backoff_delay,
    (0 <= backoff_delay)%Z ->
    costs wt (loop_bound R sigma (max_retries - retries) backoff_delay)
      (room_loop env invite fuel retries backoff_delay).
Proof.
  induction fuel as [|fuel IH]; intros retries backoff_delay Hb; cbn [room_loop];
    destruct (Nat.ltb_spec retries max_retries) as [Hlt|Hge];
    try (apply costs_ret; now apply loop_bound_nonneg).
  assert (max_retries - retries = S (max_retries - S retries))%nat as -> by lia.
  rewrite loop_bound_step.
  pose proof (loop_bound_nonneg (max_retries - S retries) (backoff_delay * 2)
                ltac:(lia)) as Hrest.
  assert (0 <= sigma * backoff_delay)%Z as Hpause by nia.
  apply costs_bind; [lia|apply costs_http_post_room|].
  intros [|status_code body]; [apply costs_ret; lia|].
  repeat apply costs_if; try (apply costs_ret; lia).
  - apply costs_bind; [lia|apply costs_sleep|]. intros _. apply IH. lia.
  - apply costs_weaken with (n := (0 + (0 + (0 + (0 + (0 + 0)))))%Z); [lia|].
    apply costs_bind; [lia|apply costs_lift; lia|]. intros ocs.
    apply costs_bind; [lia|apply costs_lift; lia|]. intros room_data.
    apply costs_if; [|apply costs_ret; lia].
    apply costs_bind; [lia|apply costs_lift; lia|]. intros room_token.
    apply costs_bind; [lia|apply costs_replace_cache|]. intros _.
    apply costs_bind; [lia|apply costs_commit|]. intros _.
    apply costs_ret. lia.
Qed.

Lemma costs_create_talk_conversation invite :
  costs wt (loop_bound R sigma max_retries 1) (create_talk_conversation env invite).
Proof.
  pose proof (loop_bound_nonneg max_retries 1 ltac:(lia)) as Hloop.
  apply costs_weaken with (n := (0 + loop_bound R sigma max_retries 1)%Z); [lia|].
  apply costs_bind; [lia|apply costs_select_cache|].
  intros [room_token|]; [apply costs_ret; lia|].
  apply (costs_room_loop invite max_retries 0%nat 1%Z). lia.
Qed.

Lemma costs_fetch_user_details email : costs wt U (fetch_user_details py env email).
Proof.
  apply costs_weaken with (n := (U + 0)%Z); [lia|].
  apply costs_bind; [lia|apply costs_http_get_user|].
  intros [|status_code body]; [apply costs_ret; lia|].
  apply costs_if; [apply costs_ret|apply costs_lift]; lia.
Qed.

Lemma costs_send_talk_message room_token message :
  costs wt C (send_talk_message py env room_token message).
Proof.
  apply costs_weaken with (n := (C + 0)%Z); [lia|].
  apply costs_bind; [lia|apply costs_http_post_chat|].
  intros [|status_code body]; apply costs_ret; lia.
Qed.

Lemma costs_downstream data :
  costs wt (U + (loop_bound R sigma max_retries 1 + C)) (downstream py cfg env data).
Proof.
  pose proof (loop_bound_nonneg max_retries 1 ltac:(lia)) as Hloop.
  unfold downstream.
  do 6 (apply costs_weaken
          with (n := (0 + (U + (loop_bound R sigma max_retries 1 + C)))%Z); [lia|];
        apply costs_bind; [lia|apply costs_lift; lia|]; intro).
  apply costs_if; [|apply costs_ret; lia].
  apply costs_bind; [lia|apply costs_fetch_user_details|]. intros user_details.
  apply costs_if; [|apply costs_ret; lia].
  apply costs_weaken with (n := (0 + (loop_bound R sigma max_retries 1 + C))%Z); [lia|].
  apply costs_bind; [lia|apply costs_lift; lia|]. intros full_name.
  apply costs_if; [|apply costs_ret; lia].
  apply costs_weaken with (n := (0 + (loop_bound R sigma max_retries 1 + C))%Z); [lia|].
  apply costs_bind; [lia|apply costs_lift; lia|]. intros talk_username.
  apply costs_bind; [lia|apply costs_create_talk_conversation|]. intros room_token.
  apply costs_if; [|apply costs_ret; lia].
  apply costs_weaken with (n := (C + 0)%Z); [lia|].
  apply costs_bind; [lia|apply costs_send_talk_message|]. intros _.
  apply costs_ret. lia.
Qed.

Lemma costs_process data :
  costs wt (U + (loop_bound R sigma max_retries 1 + C)) (process py cfg env data).
Proof.
  pose proof (loop_bound_nonneg max_retries 1 ltac:(lia)) as Hloop.
  unfold process. apply costs_if; [|apply costs_ret; lia].
  apply costs_weaken
    with (n := (0 + (0 + (0 + (U + (loop_bound R sigma max_retries 1 + C)))))%Z);
    [lia|].
  apply costs_bind; [lia|apply costs_select_processed|]. intros seen.
  apply costs_if; [apply costs_ret; lia|].
  apply costs_bind; [lia|apply costs_insert_processed|]. intros _.
  apply costs_bind; [lia|apply costs_commit|]. intros _.
  apply costs_downstream.
Qed.

Lemma costs_webhook_listener req :
  costs wt (U + (loop_bound R sigma max_retries 1 + C))
    (webhook_listener py cfg env req).
Proof.
  pose proof (loop_bound_nonneg max_retries 1 ltac:(lia)) as Hloop.
  unfold webhook_listener. destruct (is_json req).
  - apply costs_weaken
      with (n := (0 + (U + (loop_bound R sigma max_retries 1 + C)))%Z); [lia|].
    apply costs_bind; [lia|apply costs_lift; lia|]. intros data. apply costs_process.
  - destruct (form req); [apply costs_ret; lia|].
    apply costs_weaken
      with (n := (0 + (U + (loop_bound R sigma max_retries 1 + C)))%Z); [lia|].
    apply costs_bind; [lia|apply costs_lift; lia|]. intros data. apply costs_process.
Qed.

Lemma total_serve req w :
  (total wt (new_events w (snd (serve py cfg env req w)))
   <= U + (loop_bound R sigma max_retries 1 + C))%Z.
Proof.
  rewrite serve_eq. cbn [snd].
  destruct (costs_webhook_listener req (connect w)) as [evs [Hlog Hwt]].
  unfold new_events, close_db. cbn [log]. rewrite Hlog. cbn [connect log].
  now rewrite skipn_length_app.
Qed.

End Traffic.

Lemma one_quiet f :
  (forall e, quiet e = true -> f e = false) ->
  forall e, quiet e = true -> one f e = 0%Z.
Proof. intros Hf e He. unfold one. now rewrite (Hf e He). Qed.

Lemma one_le f e : (one f e <= 1)%Z.
Proof. unfold one. destruct (f e); lia. Qed.

(** X1. Whatever the request and whatever the services answer, one request
    asks the directory at most once, posts at most five conversations and
    sends at most one message. *)
Theorem outbound_calls_bounded (py : PyText) (cfg : Config) (env : Env)
  (req : Request) (w : World) :
  (count is_get_user (new_events w (snd (serve py cfg env req w))) <= 1)%nat
  /\ (count is_post_room (new_events w (snd (serve py cfg env req w))) <= 5)%nat
  /\ (count is_post_chat (new_events w (snd (serve py cfg env req w))) <= 1)%nat.
Proof.
  repeat split; apply Nat2Z.inj_le; rewrite <- total_one_count.
  - eapply Z.le_trans.
    + apply (total_serve py cfg env (one is_get_user) 1 0 0 0); try lia;
        try (intros; apply one_le); try reflexivity.
      apply one_quiet. now intros [].
    + vm_compute. discriminate.
  - eapply Z.le_trans.
    + apply (total_serve py cfg env (one is_post_room) 0 1 0 0); try lia;
        try (intros; apply one_le); try reflexivity.
      apply one_quiet. now intros [].
    + vm_compute. discriminate.
  - eapply Z.le_trans.
    + apply (total_serve py cfg env (one is_post_chat) 0 0 1 0); try lia;
        try (intros; apply one_le); try reflexivity.
      apply one_quiet. now intros [].
    + vm_compute. discriminate.
Qed.

(** X2. Whatever the services answer, the sleeps of one request add up to at
    most 31 seconds (1 + 2 + 4 + 8 + 16). *)
Theorem backoff_sleep_bounded (py : PyText) (cfg : Config) (env : Env)
  (req : Request) (w : World) :
  (total slept (new_events w (snd (serve py cfg env req w))) <= 31)%Z.
Proof.
  eapply Z.le_trans.
  - apply (total_serve py cfg env slept 0 0 0 1); try lia; try reflexivity.
    + now intros [].
    + intros seconds. cbn [slept]. lia.
  - vm_compute. discriminate.
Qed.

(* ================================================================== *)
(** ** Further properties: retries of the conversation manager *)

Section Retries.

Variable env : Env.

Lemma world_eta w : {| disk := disk w; conn := conn w; log := log w |} = w.
Proof. now destruct w. Qed.

(** [k] rate-limited attempts in a row. *)
Lemma room_loop_retries invite k :
  forall fuel retries backoff_delay w,
    (retries + k <= max_retries)%nat ->
    (forall j, (j < k)%nat ->
       exists body,
         talk_room env (log w ++ retry_log invite j backoff_delay) invite
         = Response 429 body) ->
    room_loop env invite (k + fuel) retries backoff_delay w =
    room_loop env invite fuel (retries + k) (backoff_delay * 2 ^ Z.of_nat k)
      {| disk := disk w; conn := conn w;
         log := log w ++ retry_log invite k backoff_delay |}.
Proof.
  induction k as [|k IH]; intros fuel retries backoff_delay w Hle Hbusy.
  - cbn [retry_log Nat.add]. rewrite app_nil_r, world_eta, Nat.add_0_r.
    cbn [Z.of_nat]. now rewrite Z.pow_0_r, Z.mul_1_r.
  - destruct (Hbusy 0%nat ltac:(lia)) as [body Hroom].
    cbn [retry_log] in Hroom. rewrite app_nil_r in Hroom.
    cbn [Nat.add]. rewrite (room_loop_429 env _ _ _ _ _ _ Hroom) by lia.
    rewrite IH.
    + cbn [log disk conn retry_log].
      rewrite Nat.add_succ_r, Nat2Z.inj_succ, Z.pow_succ_r by lia.
      rewrite <- app_assoc. cbn [app Nat.add].
      now replace (backoff_delay * 2 * 2 ^ Z.of_nat k)%Z
        with (backoff_delay * (2 * 2 ^ Z.of_nat k))%Z by ring.
    + lia.
    + intros j Hj. destruct (Hbusy (S j) ltac:(lia)) as [body' Hroom'].
      exists body'. cbn [log retry_log] in *. rewrite <- app_assoc. exact Hroom'.
Qed.

(** An attempt that fails otherwise than by 429 ends the loop. *)
Lemma room_loop_gives_up invite fuel retries backoff_delay w :
  (retries < max_retries)%nat ->
  request_failed (talk_room env (log w) invite) = true ->
  (forall body, talk_room env (log w) invite <> Response 429 body) ->
  room_loop env invite (S fuel) retries backoff_delay w =
  (Val JNull,
   {| disk := disk w; conn := conn w; log := log w ++ [PostRoom invite] |}).
Proof.
  intros Hlt Hfail Hnot. cbn [room_loop]. apply Nat.ltb_lt in Hlt. rewrite Hlt.
  unfold bind at 1. unfold http_post_room.
  destruct (talk_room env (log w) invite) as [|status_code body]; [reflexivity|].
  cbn [request_failed] in Hfail. rewrite Hfail.
  destruct (Z.eqb_spec status_code 429) as [->|Hne]; [now destruct (Hnot body)|].
  reflexivity.
Qed.

(** An attempt that is answered with a success response. *)
Lemma room_loop_answered invite fuel retries backoff_delay w status_code body
  ocs room_data :
  (retries < max_retries)%nat ->
  talk_room env (log w) invite = Response status_code body ->
  raises_for_status status_code = false ->
  py_get_default body "ocs" (JDict []) = Val ocs ->
  py_get ocs "data" = Val room_data ->
  room_loop env invite (S fuel) retries backoff_delay w =
  (if truthy room_data then
     room_token <- lift (py_get room_data "token") ;;
     replace_cache invite room_token ;;;
     commit ;;;
     ret room_token
   else ret JNull)
    {| disk := disk w; conn := conn w; log := log w ++ [PostRoom invite] |}.
Proof.
  intros Hlt Hroom Hok Hocs Hdata. cbn [room_loop].
  apply Nat.ltb_lt in Hlt. rewrite Hlt.
  unfold bind at 1. unfold http_post_room.
  rewrite Hroom, Hok, Hocs. now rewrite bind_lift_val, Hdata, bind_lift_val.
Qed.

Lemma create_after_retries invite k w :
  cache_row invite (user_cache (conn w)) = None ->
  (k < max_retries)%nat ->
  (forall j, (j < k)%nat ->
     exists body,
       talk_room env (log w ++ SelectCache invite :: retry_log invite j 1) invite
       = Response 429 body) ->
  create_talk_conversation env invite w =
  room_loop env invite (S (max_retries - S k)) k (2 ^ Z.of_nat k)
    {| disk := disk w; conn := conn w;
       log := log w ++ SelectCache invite :: retry_log invite k 1 |}.
Proof.
  intros Hmiss Hk Hbusy. rewrite (create_cache_miss _ _ _ Hmiss).
  replace max_retries with (k + S (max_retries - S k))%nat at 1 by lia.
  rewrite room_loop_retries.
  - cbn [log disk conn Nat.add]. rewrite Z.mul_1_l, app_one_two. reflexivity.
  - lia.
  - intros j Hj. destruct (Hbusy j Hj) as [body Hroom]. exists body.
    cbn [log]. now rewrite app_one_two.
Qed.

(** X3. After [k] rate-limited attempts ([k] below five, delays 1, 2, 4, ...
    in between), a success answer with conversation data ends the retries:
    the token is written to the cache, committed and returned. *)
Theorem retry_then_success invite k w status_code body ocs room_data room_token
  stored :
  cache_row invite (user_cache (conn w)) = None ->
  (k < max_retries)%nat ->
  (forall j, (j < k)%nat ->
     exists body429,
       talk_room env (log w ++ SelectCache invite :: retry_log invite j 1) invite
       = Response 429 body429) ->
  talk_room env (log w ++ SelectCache invite :: retry_log invite k 1) invite
  = Response status_code body ->
  raises_for_status status_code = false ->
  py_get_default body "ocs" (JDict []) = Val ocs ->
  py_get ocs "data" = Val room_data ->
  truthy room_data = true ->
  py_get room_data "token" = Val room_token ->
  sql_value room_token = Some stored ->
  create_talk_conversation env invite w =
  (Val room_token,
   {| disk := {| processed_webhooks := processed_webhooks (conn w);
                 user_cache := cache_replace invite stored (user_cache (conn w)) |};
      conn := {| processed_webhooks := processed_webhooks (conn w);
                 user_cache := cache_replace invite stored (user_cache (conn w)) |};
      log := log w ++ SelectCache invite :: retry_log invite k 1
               ++ [PostRoom invite; ReplaceCache invite stored; Commit] |}).
Proof.
  intros Hmiss Hk Hbusy Hroom Hok Hocs Hdata Htruthy Htoken Hsql.
  rewrite (create_after_retries _ _ _ Hmiss Hk Hbusy).
  rewrite (room_loop_answered invite _ _ _
             {| disk := disk w; conn := conn w;
                log := log w ++ SelectCache invite :: retry_log invite k 1 |}
             _ _ _ _ Hk Hroom Hok Hocs Hdata).
  rewrite Htruthy, Htoken, bind_lift_val.
  unfold replace_cache. rewrite Hsql. unfold bind, emit, commit, ret, bind, emit.
  cbn [log disk conn]. rewrite <- !app_assoc. reflexivity.
Qed.

(** X4. After [k] rate-limited attempts ([k] below five), an attempt that
    fails otherwise (no connection, or a 4xx or 5xx that is not 429) is the
    last: no further post, no sleep, nothing written, [None] returned. *)
Theorem retry_then_failure invite k w :
  cache_row invite (user_cache (conn w)) = None ->
  (k < max_retries)%nat ->
  (forall j, (j < k)%nat ->
     exists body429,
       talk_room env (log w ++ SelectCache invite :: retry_log invite j 1) invite
       = Response 429 body429) ->
  request_failed
    (talk_room env (log w ++ SelectCache invite :: retry_log invite k 1) invite)
  = true ->
  (forall body,
      talk_room env (log w ++ SelectCache invite :: retry_log invite k 1) invite
      <> Response 429 body) ->
  create_talk_conversation env invite w =
  (Val JNull,
   {| disk := disk w; conn := conn w;
      log := log w ++ SelectCache invite :: retry_log invite k 1
               ++ [PostRoom invite] |}).
Proof.
  intros Hmiss Hk Hbusy Hfail Hnot.
  rewrite (create_after_retries _ _ _ Hmiss Hk Hbusy).
  rewrite room_loop_gives_up; try assumption.
  cbn [log disk conn]. rewrite <- !app_assoc. reflexivity.
Qed.

End Retries.

(** Two rate-limited attempts, then a token. *)
Lemma retry_then_success_witness :
  create_talk_conversation (flaky_env 2 (room_created "tok1")) "Alice Smith"
    fresh_world =
  (Val (JStr "tok1"),
   {| disk := {| processed_webhooks := []; user_cache := [("Alice Smith", JStr "tok1")] |};
      conn := {| processed_webhooks := []; user_cache := [("Alice Smith", JStr "tok1")] |};
      log := [SelectCache "Alice Smith"; PostRoom "Alice Smith"; Sleep 1;
              PostRoom "Alice Smith"; Sleep 2; PostRoom "Alice Smith";
              ReplaceCache "Alice Smith" (JStr "tok1"); Commit] |}).
Proof.
  apply (retry_then_success (flaky_env 2 (room_created "tok1")) "Alice Smith" 2
           fresh_world 200%Z
           (JDict [("ocs", JDict [("data", JDict [("token", JStr "tok1")])])])
           (JDict [("data", JDict [("token", JStr "tok1")])])
           (JDict [("token", JStr "tok1")]) (JStr "tok1") (JStr "tok1"));
    try reflexivity.
  - unfold max_retries. lia.
  - intros j Hj. exists JNull.
    destruct j as [|[|j]]; [reflexivity|reflexivity|lia].
Defined.

(** Two rate-limited attempts, then a 503. *)
Lemma retry_then_failure_witness :
  create_talk_conversation (flaky_env 2 (status_only 503)) "Alice Smith"
    fresh_world =
  (Val JNull,
   {| disk := empty_tables; conn := empty_tables;
      log := [SelectCache "Alice Smith"; PostRoom "Alice Smith"; Sleep 1;
              PostRoom "Alice Smith"; Sleep 2; PostRoom "Alice Smith"] |}).
Proof.
  apply (retry_then_failure (flaky_env 2 (status_only 503)) "Alice Smith" 2
           fresh_world); try reflexivity.
  - unfold max_retries. lia.
  - intros j Hj. exists JNull.
    destruct j as [|[|j]]; [reflexivity|reflexivity|lia].
  - intros body. vm_compute. discriminate.
Defined.

(* ================================================================== *)
(** ** Further properties: the store *)

Section Store.

Variable py : PyText.
Variable cfg : Config.
Variable env : Env.

Lemma at_rest_log {A} (e : Event) (a : World -> Res A) :
  preserves at_rest
    (fun w => (a w, {| disk := disk w; conn := conn w; log := log w ++ [e] |})).
Proof. intros w Hw. exact Hw. Qed.

(** A cache write is committed before anything else happens. *)
Lemma at_rest_write {A} username room_token (a : A) :
  preserves at_rest (replace_cache username room_token ;;; commit ;;; ret a).
Proof.
  intros w Hw. unfold replace_cache.
  destruct (sql_value room_token); [reflexivity|exact Hw].
Qed.

Lemma at_rest_room_loop invite fuel :
  forall retries backoff_delay,
    preserves at_rest (room_loop env invite fuel retries backoff_delay).
Proof.
  induction fuel as [|fuel IH]; intros retries backoff_delay; cbn [room_loop];
    apply preserves_if; try apply preserves_ret.
  apply preserves_bind; [apply (at_rest_log (PostRoom invite))|].
  intros [|status_code body]; [apply preserves_ret|].
  repeat apply preserves_if; try apply preserves_ret.
  - apply preserves_bind; [apply (at_rest_log (Sleep backoff_delay) (fun _ => Val tt))|].
    intros _. apply IH.
  - apply preserves_bind; [apply preserves_lift|]. intros ocs.
    apply preserves_bind; [apply preserves_lift|]. intros room_data.
    apply preserves_if; [|apply preserves_ret].
    apply preserves_bind; [apply preserves_lift|]. intros room_token.
    apply at_rest_write.
Qed.

Lemma at_rest_downstream data : preserves at_rest (downstream py cfg env data).
Proof.
  unfold downstream.
  do 6 (apply preserves_bind; [apply preserves_lift|]; intro).
  apply preserves_if; [|apply preserves_ret].
  apply preserves_bind.
  { apply preserves_bind; [apply (at_rest_log (GetUser _))|].
    intros [|status_code body]; [apply preserves_ret|].
    apply preserves_if; [apply preserves_ret|apply preserves_lift]. }
  intros user_details. apply preserves_if; [|apply preserves_ret].
  apply preserves_bind; [apply preserves_lift|]. intros full_name.
  apply preserves_if; [|apply preserves_ret].
  apply preserves_bind; [apply preserves_lift|]. intros talk_username.
  apply preserves_bind.
  { apply preserves_bind.
    - apply preserves_bind; [apply (at_rest_log (SelectCache _) (fun _ => Val tt))|].
      intros _ w Hw. exact Hw.
    - intros [room_token|]; [apply preserves_ret|apply at_rest_room_loop]. }
  intros room_token. apply preserves_if; [|apply preserves_ret].
  apply preserves_bind; [|intros _; apply preserves_ret].
  apply preserves_bind; [apply (at_rest_log (PostChat _ _))|].
  intros [|status_code body]; apply preserves_ret.
Qed.

Lemma at_rest_process data : preserves at_rest (process py cfg env data).
Proof.
  intros w Hw. destruct (truthy data) eqn:Ht.
  - destruct (is_processed (dumps py data) (conn w)) eqn:Hseen.
    + rewrite (process_seen py cfg env _ _ Ht Hseen). exact Hw.
    + rewrite (process_unseen py cfg env _ _ Ht Hseen).
      apply at_rest_downstream. reflexivity.
  - rewrite (process_falsy py cfg env _ _ Ht). exact Hw.
Qed.

(** X5. Every write of the view is committed before the view can return or
    raise: when the request ends, the teardown that closes the connection
    has nothing to discard. *)
Theorem nothing_left_uncommitted (req : Request) (w : World) :
  close_db (snd (webhook_listener py cfg env req (connect w)))
  = snd (webhook_listener py cfg env req (connect w)).
Proof.
  assert (at_rest (snd (webhook_listener py cfg env req (connect w)))) as Hrest.
  { assert (preserves at_rest (webhook_listener py cfg env req)) as Hkeeps.
    { unfold webhook_listener. destruct (is_json req).
      - apply preserves_bind; [apply preserves_lift|]. intros data.
        apply at_rest_process.
      - destruct (form req); [apply preserves_ret|].
        apply preserves_bind; [apply preserves_lift|]. intros data.
        apply at_rest_process. }
    apply Hkeeps. reflexivity. }
  destruct (snd (webhook_listener py cfg env req (connect w))) as [d c l].
  unfold at_rest in Hrest. cbn in Hrest. subst c. reflexivity.
Qed.

Lemma stable_processed_table (l : list string) :
  stable (fun w => processed_webhooks (disk w) = l
                   /\ processed_webhooks (conn w) = l).
Proof.
  split.
  - intros w e Hw. exact Hw.
  - intros w c [Hd Hc]. split; [exact Hd|exact Hc].
  - intros w [Hd Hc]. split; exact Hc.
Qed.

Lemma serve_processed_table (req : Request) (w : World) :
  processed_webhooks (disk (snd (serve py cfg env req w))) =
  match usable req with
  | Some data =>
      if is_processed (dumps py data) (disk w)
      then processed_webhooks (disk w)
      else (processed_webhooks (disk w) ++ [dumps py data])%list
  | None => processed_webhooks (disk w)
  end.
Proof.
  rewrite serve_eq. cbn [snd close_db disk]. unfold usable.
  destruct (parsed req) as [data|] eqn:Hp.
  - rewrite (webhook_listener_parsed py cfg env _ _ Hp).
    destruct (truthy data) eqn:Ht.
    + destruct (is_processed (dumps py data) (disk w)) eqn:Hseen.
      * now rewrite (process_seen py cfg env data (connect w) Ht Hseen).
      * rewrite (process_unseen py cfg env data (connect w) Ht Hseen).
        apply (preserves_downstream py cfg env _
                 (stable_processed_table
                    (processed_webhooks (disk w) ++ [dumps py data]))).
        split; reflexivity.
    + now rewrite (process_falsy py cfg env _ _ Ht).
  - unfold parsed in Hp. unfold webhook_listener. destruct (is_json req).
    + destruct (get_json req) as [d|[]]; try discriminate; reflexivity.
    + destruct (first_loadable_unparsed _ Hp) as [Hnone|[e Hraise]].
      * rewrite Hnone. destruct (form req); [reflexivity|].
        now rewrite bind_lift_val, process_falsy by reflexivity.
      * rewrite Hraise. now destruct (form req).
Qed.


Lemma is_processed_in payload t :
  is_processed payload t = false -> ~ In payload (processed_webhooks t).
Proof.
  unfold is_processed. intros Hnot Hin.
  assert (existsb (String.eqb payload) (processed_webhooks t) = true) as Hyes.
  { apply existsb_exists. exists payload. split; [exact Hin|apply String.eqb_refl]. }
  congruence.
Qed.

(** X7. The view looks a fingerprint up before it inserts it, so a table
    of processed payloads without repeated rows stays without repeated
    rows. *)
Theorem processed_rows_stay_distinct (req : Request) (w : World) :
  NoDup (processed_webhooks (disk w)) ->
  NoDup (processed_webhooks (disk (snd (serve py cfg env req w)))).
Proof.
  intros Hnd. rewrite serve_processed_table.
  destruct (usable req) as [data|]; [|exact Hnd].
  destruct (is_processed (dumps py data) (disk w)) eqn:Hseen; [exact Hnd|].
  apply NoDup_app; [exact Hnd|repeat constructor; intros []|].
  intros payload Hin [<-|[]]. now apply (is_processed_in _ _ Hseen).
Qed.

End Store.

(** Two requests with the scenario's assignment. *)
Lemma processed_rows_stay_distinct_witness :
  NoDup (processed_webhooks
           (disk (snd (serve plain_text erp_cfg relay_env (json_request task_payload)
                         (snd (serve plain_text erp_cfg relay_env
                                 (json_request task_payload) fresh_world)))))).
Proof.
  apply processed_rows_stay_distinct.
  apply processed_rows_stay_distinct. constructor.
Defined.

(* ================================================================== *)
(** ** Further properties: requests and replies *)

Section Replies.

Variable py : PyText.
Variable cfg : Config.
Variable env : Env.

Lemma returns_ret {A} (Q : A -> Prop) (a : A) : Q a -> returns Q (ret a).
Proof. intros Ha w a' w' [= <- _]. exact Ha. Qed.

Lemma returns_bind {A B} (Q : B -> Prop) (m : M A) (k : A -> M B) :
  (forall a, returns Q (k a)) -> returns Q (bind m k).
Proof.
  intros Hk w b w'. unfold bind. destruct (m w) as [[a|e] w1]; [apply Hk|discriminate].
Qed.

Lemma returns_if {A} (Q : A -> Prop) (b : bool) (m m' : M A) :
  returns Q m -> returns Q m' -> returns Q (if b then m else m').
Proof. now destruct b. Qed.

Lemma own_message msg : own_reply (message_body msg, 200%Z).
Proof. left. split; [reflexivity|now exists msg]. Qed.

Lemma own_error_400 msg : own_reply (error_body msg, 400%Z).
Proof. right. split; [now left|now exists msg]. Qed.

Lemma own_error_500 msg : own_reply (error_body msg, 500%Z).
Proof. right. split; [now right|now exists msg]. Qed.

Lemma returns_process data : returns own_reply (process py cfg env data).
Proof.
  unfold process. apply returns_if; [|apply returns_ret, own_error_400].
  apply returns_bind. intros seen.
  apply returns_if; [apply returns_ret, own_message|].
  do 2 (apply returns_bind; intros _). unfold downstream.
  do 6 (apply returns_bind; intro).
  apply returns_if; [|apply returns_ret, own_error_400].
  apply returns_bind. intros user_details.
  apply returns_if; [|apply returns_ret, own_error_500].
  apply returns_bind. intros full_name.
  apply returns_if; [|apply returns_ret, own_error_500].
  do 2 (apply returns_bind; intro).
  apply returns_if; [|apply returns_ret, own_error_500].
  apply returns_bind. intros _. apply returns_ret, own_message.
Qed.

(** X8. Whatever the request, the store and the services, the client gets
    one of three things: 200 with a one-key ["message"] object, 400 or 500
    with a one-key ["error"] object, or the server's own 400 or 500 page. *)
Theorem replies_are_well_formed (req : Request) (w : World) :
  well_formed (fst (serve py cfg env req w)).
Proof.
  rewrite serve_eq. cbn [fst].
  destruct (webhook_listener py cfg env req (connect w)) as [[[body status]|e] w']
    eqn:Hrun; cbn [fst outcome_of].
  - assert (returns own_reply (webhook_listener py cfg env req)) as Hown.
    { unfold webhook_listener. destruct (is_json req).
      - apply returns_bind. intros data. apply returns_process.
      - destruct (form req); [apply returns_ret, own_error_400|].
        apply returns_bind. intros data. apply returns_process. }
    apply (Hown _ _ _ Hrun).
  - destruct e; cbn; auto.
Qed.

Lemma first_parsed_skip n data rest :
  first_parsed (repeat (Fails DecodeError) n ++ Decoded data :: rest) = Some data.
Proof. induction n as [|n IH]; cbn; [reflexivity|exact IH]. Qed.

Lemma first_loadable_skip n keys :
  first_loadable (repeat (Fails DecodeError) n ++ keys) = first_loadable keys.
Proof. induction n as [|n IH]; cbn; [reflexivity|exact IH]. Qed.

Lemma form_post_listener keys w :
  keys <> [] ->
  webhook_listener py cfg env (form_post keys) w
  = (data <- lift (first_loadable keys) ;; process py cfg env data) w.
Proof. intros Hkeys. unfold webhook_listener. cbn. now destruct keys. Qed.

(** X9. A form post is served exactly as the JSON body that its first
    decodable key holds, when the keys before it only make [json.loads]
    raise [JSONDecodeError]: those are skipped, and all the keys after it
    make no difference. *)
Theorem form_key_is_payload (n : nat) (data : json) (rest : list Loaded)
  (w : World) :
  serve py cfg env
    (form_post (repeat (Fails DecodeError) n ++ Decoded data :: rest)) w
  = serve py cfg env (json_request data) w.
Proof.
  rewrite !serve_eq.
  rewrite (webhook_listener_parsed py cfg env (form_post _) data)
    by (unfold parsed; cbn; apply first_parsed_skip).
  now rewrite (webhook_listener_parsed py cfg env (json_request data) data)
    by reflexivity.
Qed.

(** X10. A form in which no key decodes before the loop ends.  When every
    key makes [json.loads] raise [JSONDecodeError], the view answers 400
    "No usable data received".  When a key makes it raise anything else (a
    plain [ValueError], a [RecursionError]) after keys that raised
    [JSONDecodeError] only, the exception is not caught: the client gets
    the server's 500 page, whatever the keys after it hold.  Either way the
    world is untouched. *)
Theorem form_without_payload (n : nat) (rest : list Loaded) (w : World) :
  serve py cfg env (form_post (repeat (Fails DecodeError) (S n))) w
  = (Json 400 (error_body "No usable data received"), connect w)
  /\ serve py cfg env
       (form_post (repeat (Fails DecodeError) n ++ Fails DigitLimit :: rest)) w
     = (ErrorPage 500, connect w)
  /\ serve py cfg env
       (form_post (repeat (Fails DecodeError) n ++ Fails TooDeep :: rest)) w
     = (ErrorPage 500, connect w).
Proof.
  repeat split; rewrite serve_eq, form_post_listener.
  - replace (repeat (Fails DecodeError) (S n))
      with (repeat (Fails DecodeError) (S n) ++ [])%list by apply app_nil_r.
    rewrite first_loadable_skip. cbn [first_loadable].
    now rewrite bind_lift_val, process_falsy by reflexivity.
  - discriminate.
  - now rewrite first_loadable_skip.
  - now destruct n.
  - now rewrite first_loadable_skip.
  - now destruct n.
Qed.

Lemma rstrip_slash_app s : rstrip_slash (s ++ "/") = rstrip_slash s.
Proof.
  induction s as [|c s IH]; [reflexivity|].
  cbn [append rstrip_slash]. now rewrite IH.
Qed.

(** X11. The link to the document does not depend on whether the
    configured base URL ends with a slash. *)
Theorem doc_url_ignores_trailing_slash (base : string)
  (reference_type reference_name : json) :
  erpnext_doc_url py {| ERPNEXT_API_URL := Some (base ++ "/") |}
    reference_type reference_name
  = erpnext_doc_url py {| ERPNEXT_API_URL := Some base |}
      reference_type reference_name.
Proof.
  unfold erpnext_doc_url. cbn [ERPNEXT_API_URL]. now rewrite rstrip_slash_app.
Qed.

End Replies.

(* ================================================================== *)
(** ** Further properties: the steps after the deduplication *)

Section Pipeline.

Variable py : PyText.
Variable cfg : Config.
Variable env : Env.

Lemma replace_space_id s : replace_char " " " " s = s.
Proof.
  induction s as [|c s IH]; cbn; [reflexivity|]. rewrite IH.
  destruct (c =? " ")%char eqn:Hc; [|reflexivity].
  apply Ascii.eqb_eq in Hc. now subst.
Qed.

(** The downstream work up to the answer of the directory. *)
Lemma downstream_directory_answer d w email url status_code body :
  truthy (field d "allocated_to") = true ->
  py_str py (field d "allocated_to") = email ->
  erpnext_doc_url py cfg (field d "reference_type") (field d "reference_name")
  = Val url ->
  erpnext_user env (log w) email = Response status_code body ->
  raises_for_status status_code = false ->
  downstream py cfg env (JDict d) w =
  (user_details <- lift (py_get body "data") ;;
   if truthy user_details then
     full_name <- lift (py_get user_details "full_name") ;;
     if truthy full_name then
       talk_username <- lift (get_talk_username full_name) ;;
       room_token <- create_talk_conversation env talk_username ;;
       if truthy room_token then
         send_talk_message py env room_token
           (notification_message py (py_str py full_name) (field d "due_date")
              (field d "reference_type") (field d "reference_name")
              (field d "assigned_by_full_name") url) ;;;
         ret (message_body "Notification sent to Nextcloud Talk", 200%Z)
       else ret (error_body "Could not create or find Talk conversation", 500%Z)
     else ret (error_body "Could not retrieve full name", 500%Z)
   else ret (error_body ("Could not fetch user details for " ++ email), 500%Z))
    {| disk := disk w; conn := conn w; log := log w ++ [GetUser email] |}.
Proof.
  intros Hto Hemail Hurl Huser Hok. unfold downstream. cbn [py_get].
  fold (field d "allocated_to"). fold (field d "reference_type").
  fold (field d "reference_name"). fold (field d "assigned_by_full_name").
  fold (field d "due_date").
  rewrite !bind_lift_val, Hurl, bind_lift_val, Hto.
  unfold fetch_user_details. rewrite Hemail.
  unfold bind at 1 2. unfold http_post_room, http_get_user.
  rewrite Huser, Hok. reflexivity.
Qed.

(** X12. When the directory answers with a success response that names no
    user (no ["data"], or an empty one), the view answers 500 "Could not
    fetch user details for ...", as for a failed request; when the user
    has no ["full_name"], it answers 500 "Could not retrieve full name".
    Either way nothing follows the directory request: no cache read, no
    conversation, no message. *)
Theorem unnamed_user_is_terminal d w email url status_code body user_details
  full_name :
  truthy (field d "allocated_to") = true ->
  py_str py (field d "allocated_to") = email ->
  erpnext_doc_url py cfg (field d "reference_type") (field d "reference_name")
  = Val url ->
  erpnext_user env (log w) email = Response status_code body ->
  raises_for_status status_code = false ->
  py_get body "data" = Val user_details ->
  (truthy user_details = false ->
   downstream py cfg env (JDict d) w =
   (Val (error_body ("Could not fetch user details for " ++ email), 500%Z),
    {| disk := disk w; conn := conn w; log := log w ++ [GetUser email] |}))
  /\ (truthy user_details = true ->
      py_get user_details "full_name" = Val full_name ->
      truthy full_name = false ->
      downstream py cfg env (JDict d) w =
      (Val (error_body "Could not retrieve full name", 500%Z),
       {| disk := disk w; conn := conn w; log := log w ++ [GetUser email] |})).
Proof.
  intros Hto Hemail Hurl Huser Hok Hdata.
  rewrite (downstream_directory_answer _ _ _ _ _ _ Hto Hemail Hurl Huser Hok).
  rewrite Hdata, bind_lift_val. split.
  - now intros ->.
  - intros -> -> Hname. now rewrite bind_lift_val, Hname.
Qed.

(** The downstream work once the directory has named the user. *)
Lemma downstream_named d w email url status_code body user_details name :
  truthy (field d "allocated_to") = true ->
  py_str py (field d "allocated_to") = email ->
  erpnext_doc_url py cfg (field d "reference_type") (field d "reference_name")
  = Val url ->
  erpnext_user env (log w) email = Response status_code body ->
  raises_for_status status_code = false ->
  py_get body "data" = Val user_details ->
  truthy user_details = true ->
  py_get user_details "full_name" = Val (JStr name) ->
  name <> "" ->
  downstream py cfg env (JDict d) w =
  (room_token <- create_talk_conversation env name ;;
   if truthy room_token then
     send_talk_message py env room_token
       (notification_message py name (field d "due_date")
          (field d "reference_type") (field d "reference_name")
          (field d "assigned_by_full_name") url) ;;;
     ret (message_body "Notification sent to Nextcloud Talk", 200%Z)
   else ret (error_body "Could not create or find Talk conversation", 500%Z))
    {| disk := disk w; conn := conn w; log := log w ++ [GetUser email] |}.
Proof.
  intros Hto Hemail Hurl Huser Hok Hdata Hud Hname Hne.
  rewrite (downstream_directory_answer _ _ _ _ _ _ Hto Hemail Hurl Huser Hok).
  rewrite Hdata, bind_lift_val, Hud, Hname, bind_lift_val.
  assert (truthy (JStr name) = true) as ->.
  { cbn. destruct (String.eqb_spec name ""); [contradiction|reflexivity]. }
  cbn [get_talk_username py_str]. now rewrite replace_space_id, bind_lift_val.
Qed.

(** X13. Once the directory has named the user, a conversation manager
    that returns no token (a failed creation, exhausted retries, or a cached
    empty token) ends the request: 500 "Could not create or find Talk
    conversation", and nothing is sent. *)
Theorem conversation_failure_is_terminal d w email url status_code body
  user_details name room_token w' :
  truthy (field d "allocated_to") = true ->
  py_str py (field d "allocated_to") = email ->
  erpnext_doc_url py cfg (field d "reference_type") (field d "reference_name")
  = Val url ->
  erpnext_user env (log w) email = Response status_code body ->
  raises_for_status status_code = false ->
  py_get body "data" = Val user_details ->
  truthy user_details = true ->
  py_get user_details "full_name" = Val (JStr name) ->
  name <> "" ->
  create_talk_conversation env name
    {| disk := disk w; conn := conn w; log := log w ++ [GetUser email] |}
  = (Val room_token, w') ->
  truthy room_token = false ->
  downstream py cfg env (JDict d) w =
  (Val (error_body "Could not create or find Talk conversation", 500%Z), w').
Proof.
  intros Hto Hemail Hurl Huser Hok Hdata Hud Hname Hne Hroom Hfalsy.
  rewrite (downstream_named _ _ _ _ _ _ _ _
             Hto Hemail Hurl Huser Hok Hdata Hud Hname Hne).
  unfold bind at 1. rewrite Hroom. now rewrite Hfalsy.
Qed.

(** X14. Once the directory has named the user and the conversation manager
    has returned a token, the view posts exactly one message, to that token,
    made from the user's name and the payload's due date, type, reference,
    document link and assigner, and answers 200 "Notification sent to
    Nextcloud Talk"; nothing is written after the conversation step. *)
Theorem message_goes_to_conversation d w email url status_code body
  user_details name room_token w' :
  truthy (field d "allocated_to") = true ->
  py_str py (field d "allocated_to") = email ->
  erpnext_doc_url py cfg (field d "reference_type") (field d "reference_name")
  = Val url ->
  erpnext_user env (log w) email = Response status_code body ->
  raises_for_status status_code = false ->
  py_get body "data" = Val user_details ->
  truthy user_details = true ->
  py_get user_details "full_name" = Val (JStr name) ->
  name <> "" ->
  create_talk_conversation env name
    {| disk := disk w; conn := conn w; log := log w ++ [GetUser email] |}
  = (Val room_token, w') ->
  truthy room_token = true ->
  downstream py cfg env (JDict d) w =
  (Val (message_body "Notification sent to Nextcloud Talk", 200%Z),
   {| disk := disk w'; conn := conn w';
      log := log w' ++
             [PostChat (py_str py room_token)
                (notification_message py name (field d "due_date")
                   (field d "reference_type") (field d "reference_name")
                   (field d "assigned_by_full_name") url)] |}).
Proof.
  intros Hto Hemail Hurl Huser Hok Hdata Hud Hname Hne Hroom Htruthy.
  rewrite (downstream_named _ _ _ _ _ _ _ _
             Hto Hemail Hurl Huser Hok Hdata Hud Hname Hne).
  unfold bind at 1. rewrite Hroom, Htruthy. apply send_result_discarded.
Qed.

(** X15. A success answer of the directory that has the wrong shape is not
    handled: when the body is not an object, when its ["data"] is truthy
    and not an object, or when the ["full_name"] is truthy and not a
    string, [AttributeError] escapes the view right after the directory
    request. *)
Theorem malformed_directory_answer_raises d w email url status_code body :
  truthy (field d "allocated_to") = true ->
  py_str py (field d "allocated_to") = email ->
  erpnext_doc_url py cfg (field d "reference_type") (field d "reference_name")
  = Val url ->
  erpnext_user env (log w) email = Response status_code body ->
  raises_for_status status_code = false ->
  (py_get body "data" = Raise AttributeError ->
   downstream py cfg env (JDict d) w =
   (Raise AttributeError,
    {| disk := disk w; conn := conn w; log := log w ++ [GetUser email] |}))
  /\ (forall user_details,
        py_get body "data" = Val user_details ->
        truthy user_details = true ->
        py_get user_details "full_name" = Raise AttributeError ->
        downstream py cfg env (JDict d) w =
        (Raise AttributeError,
         {| disk := disk w; conn := conn w; log := log w ++ [GetUser email] |}))
  /\ (forall user_details full_name,
        py_get body "data" = Val user_details ->
        truthy user_details = true ->
        py_get user_details "full_name" = Val full_name ->
        truthy full_name = true ->
        (forall name, full_name <> JStr name) ->
        downstream py cfg env (JDict d) w =
        (Raise AttributeError,
         {| disk := disk w; conn := conn w; log := log w ++ [GetUser email] |})).
Proof.
  intros Hto Hemail Hurl Huser Hok.
  rewrite (downstream_directory_answer _ _ _ _ _ _ Hto Hemail Hurl Huser Hok).
  repeat split.
  - now intros ->.
  - intros user_details Hdata Hud Hname.
    now rewrite Hdata, bind_lift_val, Hud, Hname.
  - intros user_details full_name Hdata Hud Hname Hfull Hnot.
    rewrite Hdata, bind_lift_val, Hud, Hname, bind_lift_val, Hfull.
    destruct full_name as [| | |name| |]; try reflexivity. now destruct (Hnot name).
Qed.

Lemma bind_ext {A B} (m : M A) (k k' : A -> M B) (w : World) :
  (forall a w', k a w' = k' a w') -> bind m k w = bind m k' w.
Proof.
  intros Hk. unfold bind. destruct (m w) as [[a|e] w1]; [apply Hk|reflexivity].
Qed.

Lemma downstream_with_chat chat data w :
  downstream py cfg (with_chat env chat) data w = downstream py cfg env data w.
Proof.
  unfold downstream.
  do 6 (apply bind_ext; intros ? ?).
  match goal with |- (if ?b then _ else _) _ = _ => destruct b end; [|reflexivity].
  apply (bind_ext (fetch_user_details py env _)). intros user_details w1.
  destruct (truthy user_details); [|reflexivity].
  apply bind_ext. intros full_name w2.
  destruct (truthy full_name); [|reflexivity].
  apply bind_ext. intros talk_username w3.
  apply (bind_ext (create_talk_conversation env _)). intros room_token w4.
  destruct (truthy room_token); [|reflexivity].
  now rewrite !send_result_discarded.
Qed.

(** X16. Nothing the client or the store sees depends on the chat API: with
    any other chat API, whatever it answers, the same request gets the same
    reply and leaves the same store and the same log of calls. *)
Theorem reply_independent_of_chat
  (chat : list Event -> string -> string -> HttpResult) (req : Request) (w : World) :
  serve py cfg (with_chat env chat) req w = serve py cfg env req w.
Proof.
  rewrite !serve_eq.
  assert (forall data w0,
             process py cfg (with_chat env chat) data w0
             = process py cfg env data w0) as Hprocess.
  { intros data w0. unfold process. destruct (truthy data); [|reflexivity].
    cbv zeta. apply bind_ext. intros seen w1. destruct seen; [reflexivity|].
    do 2 (apply bind_ext; intros ? ?). apply downstream_with_chat. }
  assert (webhook_listener py cfg (with_chat env chat) req (connect w)
          = webhook_listener py cfg env req (connect w)) as ->; [|reflexivity].
  unfold webhook_listener. destruct (is_json req).
  - apply bind_ext. intros data w0. apply Hprocess.
  - destruct (form req); [reflexivity|].
    apply bind_ext. intros data w0. apply Hprocess.
Qed.

End Pipeline.

(** The scenario's assignment with a directory that answers an array. *)
Lemma malformed_directory_answer_raises_witness :
  downstream plain_text erp_cfg garbled_env task_payload fresh_world =
  (Raise AttributeError,
   {| disk := empty_tables; conn := empty_tables; log := [GetUser "a@x.com"] |}).
Proof.
  refine (proj1 (malformed_directory_answer_raises plain_text erp_cfg garbled_env
                   _ fresh_world "a@x.com" "https://erp.example/app/task/T-1" 200%Z
                   (JList []) _ _ _ _ _) _); reflexivity.
Defined.

(** The scenario's assignment with a directory that knows no name. *)
Lemma unnamed_user_is_terminal_witness :
  downstream plain_text erp_cfg nameless_env task_payload fresh_world =
  (Val (error_body "Could not retrieve full name", 500%Z),
   {| disk := empty_tables; conn := empty_tables; log := [GetUser "a@x.com"] |}).
Proof.
  refine (proj2 (unnamed_user_is_terminal plain_text erp_cfg nameless_env
                   _ fresh_world "a@x.com" "https://erp.example/app/task/T-1" 200%Z
                   (JDict [("data", JDict [("email", JStr "a@x.com")])])
                   (JDict [("email", JStr "a@x.com")]) JNull
                   _ _ _ _ _ _) _ _ _); reflexivity.
Defined.

(** The scenario's assignment with a conversation API that answers 500. *)
Lemma conversation_failure_is_terminal_witness :
  downstream plain_text erp_cfg room_down_env task_payload fresh_world =
  (Val (error_body "Could not create or find Talk conversation", 500%Z),
   {| disk := empty_tables; conn := empty_tables;
      log := [GetUser "a@x.com"; SelectCache "Alice Smith"; PostRoom "Alice Smith"] |}).
Proof.
  refine (conversation_failure_is_terminal plain_text erp_cfg room_down_env
            _ fresh_world "a@x.com" "https://erp.example/app/task/T-1" 200%Z
            (JDict [("data", JDict [("full_name", JStr "Alice Smith")])])
            (JDict [("full_name", JStr "Alice Smith")]) "Alice Smith" JNull _
            _ _ _ _ _ _ _ _ _ _ _); try reflexivity.
  discriminate.
Defined.

(** The scenario's assignment when every service is up. *)
Lemma message_goes_to_conversation_witness :
  fst (downstream plain_text erp_cfg relay_env task_payload fresh_world) =
  Val (message_body "Notification sent to Nextcloud Talk", 200%Z).
Proof.
  refine (f_equal fst
            (message_goes_to_conversation plain_text erp_cfg relay_env
               _ fresh_world "a@x.com" "https://erp.example/app/task/T-1" 200%Z
               (JDict [("data", JDict [("full_name", JStr "Alice Smith")])])
               (JDict [("full_name", JStr "Alice Smith")]) "Alice Smith"
               (JStr "tok1") _ _ _ _ _ _ _ _ _ _ _ _)); try reflexivity.
  discriminate.
Defined.

(* ================================================================== *)
(** ** Further properties: the cache *)

Section Cache.

Variable env : Env.
Variable invite : string.
Variable P : World -> Prop.
Hypothesis HP : stable_at invite P.

Lemma preserves_at_log {A} (e : Event) (a : World -> Res A) :
  preserves P
    (fun w => (a w, {| disk := disk w; conn := conn w; log := log w ++ [e] |})).
Proof. intros w Hw. cbn. now apply (stable_at_log invite P HP). Qed.

Lemma preserves_at_write {A} room_token (a : A) :
  preserves P (replace_cache invite room_token ;;; commit ;;; ret a).
Proof.
  intros w Hw. unfold replace_cache.
  destruct (sql_value room_token) as [stored|]; [|exact Hw].
  cbn.
  apply (stable_at_commit invite P HP
           {| disk := disk w;
              conn := {| processed_webhooks := processed_webhooks (conn w);
                         user_cache := cache_replace invite stored
                                         (user_cache (conn w)) |};
              log := (log w ++ [ReplaceCache invite stored]) ++ [Commit] |}).
  apply (stable_at_log invite P HP
           {| disk := disk w;
              conn := {| processed_webhooks := processed_webhooks (conn w);
                         user_cache := cache_replace invite stored
                                         (user_cache (conn w)) |};
              log := log w ++ [ReplaceCache invite stored] |} Commit).
  apply (stable_at_cache invite P HP
           {| disk := disk w; conn := conn w;
              log := log w ++ [ReplaceCache invite stored] |}).
  now apply (stable_at_log invite P HP).
Qed.

Lemma preserves_at_room_loop fuel :
  forall retries backoff_delay,
    preserves P (room_loop env invite fuel retries backoff_delay).
Proof.
  induction fuel as [|fuel IH]; intros retries backoff_delay; cbn [room_loop];
    apply preserves_if; try apply preserves_ret.
  apply preserves_bind; [apply (preserves_at_log (PostRoom invite))|].
  intros [|status_code body]; [apply preserves_ret|].
  repeat apply preserves_if; try apply preserves_ret.
  - apply preserves_bind;
      [apply (preserves_at_log (Sleep backoff_delay) (fun _ => Val tt))|].
    intros _. apply IH.
  - apply preserves_bind; [apply preserves_lift|]. intros ocs.
    apply preserves_bind; [apply preserves_lift|]. intros room_data.
    apply preserves_if; [|apply preserves_ret].
    apply preserves_bind; [apply preserves_lift|]. intros room_token.
    apply preserves_at_write.
Qed.

Lemma preserves_at_create : preserves P (create_talk_conversation env invite).
Proof.
  apply preserves_bind.
  - apply preserves_bind;
      [apply (preserves_at_log (SelectCache invite) (fun _ => Val tt))|].
    intros _ w Hw. exact Hw.
  - intros [room_token|]; [apply preserves_ret|apply preserves_at_room_loop].
Qed.

End Cache.

Lemma cache_row_replace_other username invite stored c :
  username <> invite ->
  cache_row username (cache_replace invite stored c) = cache_row username c.
Proof.
  intros Hne. unfold cache_replace. cbn [cache_row].
  destruct (String.eqb_spec invite username) as [Heq|_]; [now destruct Hne|].
  induction c as [|[u tok] c IH]; [reflexivity|].
  cbn [filter fst cache_row].
  destruct (String.eqb_spec u invite) as [->|Hu]; cbn [negb].
  - destruct (String.eqb_spec invite username) as [Heq|_]; [now destruct Hne|].
    exact IH.
  - cbn [cache_row]. now rewrite IH.
Qed.

(** X17. Getting or creating the conversation of one recipient leaves every
    other recipient's cached token as it was, and does not touch the table
    of processed payloads, whatever the conversation API answers. *)
Theorem create_touches_only_its_row (env : Env) (invite username : string)
  (w : World) :
  username <> invite ->
  cache_row username
    (user_cache (conn (snd (create_talk_conversation env invite w))))
  = cache_row username (user_cache (conn w))
  /\ processed_webhooks (conn (snd (create_talk_conversation env invite w)))
     = processed_webhooks (conn w).
Proof.
  intros Hne.
  apply (preserves_at_create env invite
           (fun w0 => cache_row username (user_cache (conn w0))
                      = cache_row username (user_cache (conn w))
                      /\ processed_webhooks (conn w0) = processed_webhooks (conn w))).
  - split.
    + intros w0 e Hw0. exact Hw0.
    + intros w0 stored [Hrow Hproc]. cbn [conn user_cache processed_webhooks].
      split; [|exact Hproc]. now rewrite cache_row_replace_other.
    + intros w0 Hw0. exact Hw0.
  - split; reflexivity.
Qed.

(** Alice's conversation is created while Bob's is cached. *)
Lemma create_touches_only_its_row_witness :
  "Bob Jones" <> "Alice Smith"
  /\ cache_row "Bob Jones"
       (user_cache (conn (snd (create_talk_conversation relay_env "Alice Smith"
                                 bob_cached))))
     = Some (JStr "tokB").
Proof.
  split; [discriminate|].
  apply (create_touches_only_its_row relay_env "Alice Smith" "Bob Jones" bob_cached).
  discriminate.
Defined.

Section Answers.

Variable env : Env.

Lemma create_first_answer invite w status_code body :
  cache_row invite (user_cache (conn w)) = None ->
  talk_room env (log w ++ [SelectCache invite]) invite = Response status_code body ->
  raises_for_status status_code = false ->
  create_talk_conversation env invite w =
  (ocs <- lift (py_get_default body "ocs" (JDict [])) ;;
   room_data <- lift (py_get ocs "data") ;;
   if truthy room_data then
     room_token <- lift (py_get room_data "token") ;;
     replace_cache invite room_token ;;;
     commit ;;;
     ret room_token
   else ret JNull)
    {| disk := disk w; conn := conn w;
       log := log w ++ [SelectCache invite; PostRoom invite] |}.
Proof.
  intros Hmiss Hroom Hok. rewrite (create_cache_miss _ _ _ Hmiss).
  unfold max_retries at 1. cbn [room_loop]. cbn [Nat.ltb Nat.leb max_retries].
  unfold bind at 1. unfold http_post_room. cbn [log disk conn].
  rewrite Hroom, Hok. now rewrite app_one_two.
Qed.

(** X18. A success answer of the conversation API that has the wrong shape
    is not handled: when the body, its ["ocs"] or a truthy ["data"] is not an
    object, [AttributeError] escapes [create_talk_conversation]; when the
    token is a list or an object, the cache insert raises. In each case
    nothing has been written and no retry is made. *)
Theorem malformed_room_answer_raises invite w status_code body :
  cache_row invite (user_cache (conn w)) = None ->
  talk_room env (log w ++ [SelectCache invite]) invite = Response status_code body ->
  raises_for_status status_code = false ->
  (py_get_default body "ocs" (JDict []) = Raise AttributeError ->
   create_talk_conversation env invite w =
   (Raise AttributeError,
    {| disk := disk w; conn := conn w;
       log := log w ++ [SelectCache invite; PostRoom invite] |}))
  /\ (forall ocs,
        py_get_default body "ocs" (JDict []) = Val ocs ->
        py_get ocs "data" = Raise AttributeError ->
        create_talk_conversation env invite w =
        (Raise AttributeError,
         {| disk := disk w; conn := conn w;
            log := log w ++ [SelectCache invite; PostRoom invite] |}))
  /\ (forall ocs room_data,
        py_get_default body "ocs" (JDict []) = Val ocs ->
        py_get ocs "data" = Val room_data ->
        truthy room_data = true ->
        py_get room_data "token" = Raise AttributeError ->
        create_talk_conversation env invite w =
        (Raise AttributeError,
         {| disk := disk w; conn := conn w;
            log := log w ++ [SelectCache invite; PostRoom invite] |}))
  /\ (forall ocs room_data room_token,
        py_get_default body "ocs" (JDict []) = Val ocs ->
        py_get ocs "data" = Val room_data ->
        truthy room_data = true ->
        py_get room_data "token" = Val room_token ->
        sql_value room_token = None ->
        create_talk_conversation env invite w =
        (Raise InterfaceError,
         {| disk := disk w; conn := conn w;
            log := log w ++ [SelectCache invite; PostRoom invite] |})).
Proof.
  intros Hmiss Hroom Hok. rewrite (create_first_answer _ _ _ _ Hmiss Hroom Hok).
  repeat split.
  - now intros ->.
  - intros ocs Hocs Hdata. now rewrite Hocs, bind_lift_val, Hdata.
  - intros ocs room_data Hocs Hdata Htruthy Htoken.
    now rewrite Hocs, bind_lift_val, Hdata, bind_lift_val, Htruthy, Htoken.
  - intros ocs room_data room_token Hocs Hdata Htruthy Htoken Hsql.
    rewrite Hocs, bind_lift_val, Hdata, bind_lift_val, Htruthy, Htoken, bind_lift_val.
    unfold replace_cache. now rewrite Hsql.
Qed.

End Answers.

(** A conversation API that answers an array. *)
Lemma malformed_room_answer_raises_witness :
  create_talk_conversation garbled_env "Alice Smith" fresh_world =
  (Raise AttributeError,
   {| disk := empty_tables; conn := empty_tables;
      log := [SelectCache "Alice Smith"; PostRoom "Alice Smith"] |}).
Proof.
  refine (proj1 (malformed_room_answer_raises garbled_env "Alice Smith" fresh_world
                   200%Z (JList []) _ _ _) _); reflexivity.
Defined.
